(** * operator-kit: registration of custom resources (resource.go)

    A shallow embedding of [CreateCustomResources] and of the four helpers
    it drives ([createCRD], [waitForCRDInit], [createTPR],
    [waitForTPRInit]).  The cluster is remote: the Go code only talks to it
    through the two client interfaces held by [Context].  Here a client is a
    record of state-passing operations over an abstract world [W], and every
    call is recorded, with its answer, in a chronological trace. *)

From Stdlib Require Import List Ascii String ZArith Bool Lia.
Import ListNotations.
Local Open Scope list_scope.
Local Open Scope string_scope.

Set Implicit Arguments.

(** ** Errors (k8s.io/apimachinery/pkg/api/errors, pkg/util/errors, fmt) *)

(** The [metav1.StatusReason] carried by an API status error. *)
Inductive StatusReason :=
| StatusReasonUnknown
| StatusReasonNotFound
| StatusReasonAlreadyExists
| StatusReasonForbidden
| StatusReasonConflict
| StatusReasonInternalError.

(** Go's [error] values that reach this file: an API status error, a plain
    message (as built by [fmt.Errorf] or [errors.New]) and the aggregate of
    [errorsUtil.NewAggregate]. *)
#[warnings="-register-all"]
Inductive error :=
| StatusError (reason : StatusReason) (message : string)
| ErrorString (msg : string)
| Aggregate (errs : list error).

Definition eqb_reason (a b : StatusReason) : bool :=
  match a, b with
  | StatusReasonUnknown, StatusReasonUnknown
  | StatusReasonNotFound, StatusReasonNotFound
  | StatusReasonAlreadyExists, StatusReasonAlreadyExists
  | StatusReasonForbidden, StatusReasonForbidden
  | StatusReasonConflict, StatusReasonConflict
  | StatusReasonInternalError, StatusReasonInternalError => true
  | _, _ => false
  end.

(** [errors.reasonForError]: the reason of a status error, unknown for any
    other error. *)
Definition reasonForError (err : error) : StatusReason :=
  match err with
  | StatusError reason _ => reason
  | _ => StatusReasonUnknown
  end.

Definition IsAlreadyExists (err : error) : bool :=
  eqb_reason (reasonForError err) StatusReasonAlreadyExists.

Definition IsNotFound (err : error) : bool :=
  eqb_reason (reasonForError err) StatusReasonNotFound.

(** The [Error()] method: the text [%v] and [%+v] print for an error. *)
Fixpoint Error (err : error) : string :=
  match err with
  | StatusError _ message => message
  | ErrorString msg => msg
  | Aggregate errs =>
      match errs with
      | [] => ""
      | [e] => Error e
      | e :: rest =>
          "[" ++ Error e
              ++ (fix more (l : list error) : string :=
                    match l with
                    | [] => ""
                    | x :: l' => ", " ++ Error x ++ more l'
                    end) rest
              ++ "]"
      end
  end.

(** [errorsUtil.NewAggregate]: nil entries are dropped, and an empty list
    gives nil. *)
Fixpoint dropNil (errlist : list (option error)) : list error :=
  match errlist with
  | [] => []
  | Some e :: rest => e :: dropNil rest
  | None :: rest => dropNil rest
  end.

Definition NewAggregate (errlist : list (option error)) : option error :=
  match dropNil errlist with
  | [] => None
  | errs => Some (Aggregate errs)
  end.

(** [wait.ErrWaitTimeout]. *)
Definition ErrWaitTimeout : error :=
  ErrorString "timed out waiting for the condition".

(** ** API objects *)

Record ObjectMeta := { ObjectMeta_Name : string }.

(** [apiextensionsv1beta1.ResourceScope], condition types and statuses are
    string types in Go; they stay strings here. *)
Definition ResourceScope := string.
Definition ClusterScoped : ResourceScope := "Cluster".
Definition NamespaceScoped : ResourceScope := "Namespaced".

Definition Established := "Established".
Definition NamesAccepted := "NamesAccepted".
Definition Terminating := "Terminating".

Definition ConditionTrue := "True".
Definition ConditionFalse := "False".
Definition ConditionUnknown := "Unknown".

Record CustomResourceDefinitionNames := {
  Names_Singular : string;
  Names_Plural : string;
  Names_Kind : string
}.

Record CustomResourceDefinitionSpec := {
  Spec_Group : string;
  Spec_Version : string;
  Spec_Scope : ResourceScope;
  Spec_Names : CustomResourceDefinitionNames
}.

Record CustomResourceDefinitionCondition := {
  Cond_Type : string;
  Cond_Status : string;
  Cond_Reason : string;
  Cond_Message : string
}.

Record CustomResourceDefinitionStatus := {
  Conditions : list CustomResourceDefinitionCondition
}.

Record CustomResourceDefinition := {
  CRD_ObjectMeta : ObjectMeta;
  CRD_Spec : CustomResourceDefinitionSpec;
  CRD_Status : CustomResourceDefinitionStatus
}.

Record APIVersion := { APIVersion_Name : string }.

Record ThirdPartyResource := {
  TPR_ObjectMeta : ObjectMeta;
  TPR_Versions : list APIVersion;
  TPR_Description : string
}.

(** [version.Info] of the discovery client; only [GitVersion] is read. *)
Record VersionInfo := { GitVersion : string }.

(** ** The source's own types *)

(** CustomResource is for creating a Kubernetes TPR/CRD. *)
Record CustomResource := {
  Name : string;
  Plural : string;
  Group : string;
  Version : string;
  Scope : ResourceScope;
  Kind : string
}.

(** The two client interfaces, as records of state-passing operations on
    the world [W] (the cluster and everything else the answers depend on). *)
Record KubernetesInterface (W : Type) := {
  (* Discovery().ServerVersion() *)
  ServerVersion : W -> W * (VersionInfo + error);
  (* ExtensionsV1beta1().ThirdPartyResources().Create(tpr) *)
  ThirdPartyResources_Create :
    ThirdPartyResource -> W -> W * (ThirdPartyResource + error);
  (* ExtensionsV1beta1().ThirdPartyResources().Delete(name, nil) *)
  ThirdPartyResources_Delete : string -> W -> W * option error;
  (* CoreV1().RESTClient().Get().RequestURI(uri).DoRaw() *)
  RESTClient_DoRaw : string -> W -> W * (string + error)
}.

Record ApiextensionsInterface (W : Type) := {
  (* ApiextensionsV1beta1().CustomResourceDefinitions().Create(crd) *)
  CustomResourceDefinitions_Create :
    CustomResourceDefinition -> W -> W * (CustomResourceDefinition + error);
  (* ApiextensionsV1beta1().CustomResourceDefinitions().Get(name, opts) *)
  CustomResourceDefinitions_Get :
    string -> W -> W * (CustomResourceDefinition + error)
}.

(** Context hold the clientsets used for creating and watching custom
    resources.  [time.Duration] is an int64 count of nanoseconds. *)
Record Context (W : Type) := {
  Clientset : KubernetesInterface W;
  APIExtensionClientset : ApiextensionsInterface W;
  Interval : Z;
  Timeout : Z
}.

(** ** Calls, traces and the state monad *)

(** The error half of a Go [(value, error)] answer. *)
Definition errOf {A} (r : A + error) : option error :=
  match r with
  | inl _ => None
  | inr e => Some e
  end.

(** One entry per client call, with what the cluster answered. *)
Inductive Event :=
| EvServerVersion (resp : VersionInfo + error)
| EvCRDCreate (crd : CustomResourceDefinition) (err : option error)
| EvCRDGet (name : string) (resp : CustomResourceDefinition + error)
| EvTPRCreate (tpr : ThirdPartyResource) (err : option error)
| EvTPRDelete (name : string) (err : option error)
| EvDoRaw (uri : string) (err : option error).

Record St (W : Type) := { world : W; trace : list Event }.

Definition M (W A : Type) := St W -> St W * A.

Definition ret {W A} (a : A) : M W A := fun s => (s, a).

Definition bind {W A B} (m : M W A) (k : A -> M W B) : M W B :=
  fun s => let (s1, a) := m s in k a s1.

Notation "x <- m ;; k" := (bind m (fun x => k))
  (at level 61, m at next level, right associativity).

(** Perform one client operation and log it. *)
Definition call {W A} (op : W -> W * A) (ev : A -> Event) : M W A :=
  fun s =>
    let (w1, a) := op (world s) in
    ({| world := w1; trace := (trace s ++ [ev a])%list |}, a).

(** What a Go function call ends in: a normal return or a panic. *)
Inductive Outcome (A : Type) :=
| Returned (a : A)
| Panicked (err : error).
Arguments Panicked {A} err.

(** The [for _, resource := range resources] loops of
    [CreateCustomResources]: the body runs for each element in order and a
    non-nil result overwrites [lastErr]. *)
Fixpoint forRange {W} (body : CustomResource -> M W (option error))
    (resources : list CustomResource) (lastErr : option error)
    : M W (option error) :=
  match resources with
  | [] => ret lastErr
  | resource :: rest =>
      err <- body resource ;;
      forRange body rest
        (match err with
         | Some e => Some e
         | None => lastErr
         end)
  end.

(** Modelled from the spec: the constant [serverVersionV170], declared in
    another file of the package; the spec gives the cutoff as v1.7.0. *)
Definition serverVersionV170 : string := "v1.7.0".

Definition newline : string := String (Ascii.ascii_of_nat 10) EmptyString.

(** ** Libraries the code calls *)

(** k8s.io/kubernetes/pkg/util/version: the parsed version type, the
    semantic-version parser and the ordering test are the library's. *)
Class VersionLib := {
  SemVersion : Type;
  ParseSemantic : string -> SemVersion + error;
  AtLeast : SemVersion -> SemVersion -> bool
}.

(** k8s.io/apimachinery/pkg/util/wait: how many ticks the poller started
    with the given interval and timeout delivers before the timeout closes
    its channel (a poller with timeout 0 never closes it and is not
    covered). *)
Class PollClock := { pollTicks : Z -> Z -> nat }.

(** [version.MustParseSemantic] panics where [ParseSemantic] fails. *)
Definition MustParseSemantic `{VersionLib} (str : string) : Outcome SemVersion :=
  match ParseSemantic str with
  | inl v => Returned v
  | inr err => Panicked err
  end.

(** [wait.WaitFor]: the condition is evaluated after each signal of the
    channel, and once more when the channel is found closed; an error or
    [true] ends the wait, and leaving the loop is a timeout. *)
Fixpoint WaitFor {W} (ticks : nat) (fn : M W (bool * option error))
    : M W (option error) :=
  r <- fn ;;
  match r with
  | (_, Some err) => ret (Some err)
  | (true, None) => ret None
  | (false, None) =>
      match ticks with
      | O => ret (Some ErrWaitTimeout)
      | S ticks' => WaitFor ticks' fn
      end
  end.

(** [wait.Poll]. *)
Definition Poll {W} `{PollClock} (interval timeout : Z) (condition : M W (bool * option error))
    : M W (option error) :=
  WaitFor (pollTicks interval timeout) condition.

(** *** createCRD *)

Definition crdName (resource : CustomResource) : string :=
  Plural resource ++ "." ++ Group resource.

(** The [crd] object built by [createCRD]. *)
Definition createCRD_crd (resource : CustomResource) : CustomResourceDefinition :=
  {| CRD_ObjectMeta := {| ObjectMeta_Name := crdName resource |};
     CRD_Spec :=
       {| Spec_Group := Group resource;
          Spec_Version := Version resource;
          Spec_Scope := Scope resource;
          Spec_Names :=
            {| Names_Singular := Name resource;
               Names_Plural := Plural resource;
               Names_Kind := Kind resource |} |};
     CRD_Status := {| Conditions := [] |} |}.

Definition createCRD {W} (context : Context W) (resource : CustomResource)
    : M W (option error) :=
  let crd := createCRD_crd resource in
  r <- call (CustomResourceDefinitions_Create (APIExtensionClientset context) crd)
            (fun r => EvCRDCreate crd (errOf r)) ;;
  match errOf r with
  | Some err =>
      if negb (IsAlreadyExists err)
      then ret (Some (ErrorString
                        ("failed to create " ++ Name resource ++ " CRD. " ++ Error err)))
      else ret None
  | None => ret None
  end.

(** *** waitForCRDInit *)

(** The loop over [crd.Status.Conditions] inside the poll condition. *)
Fixpoint scanConditions (conds : list CustomResourceDefinitionCondition)
    : bool * option error :=
  match conds with
  | [] => (false, None)
  | cond :: rest =>
      if Cond_Type cond =? Established then
        if Cond_Status cond =? ConditionTrue
        then (true, None)
        else scanConditions rest
      else if Cond_Type cond =? NamesAccepted then
        if Cond_Status cond =? ConditionFalse
        then (false, Some (ErrorString
                             ("Name conflict: " ++ Cond_Reason cond ++ newline)))
        else scanConditions rest
      else scanConditions rest
  end.

(** The condition function handed to [wait.Poll] by [waitForCRDInit]. *)
Definition waitForCRDInit_condition {W} (context : Context W) (name : string)
    : M W (bool * option error) :=
  r <- call (CustomResourceDefinitions_Get (APIExtensionClientset context) name)
            (EvCRDGet name) ;;
  match r with
  | inr err => ret (false, Some err)
  | inl crd => ret (scanConditions (Conditions (CRD_Status crd)))
  end.

Definition waitForCRDInit {W} `{PollClock} (context : Context W) (resource : CustomResource)
    : M W (option error) :=
  Poll (Interval context) (Timeout context)
       (waitForCRDInit_condition context (crdName resource)).

(** *** createTPR *)

Definition tprName (resource : CustomResource) : string :=
  Name resource ++ "." ++ Group resource.

(** The [tpr] object built by [createTPR]. *)
Definition createTPR_tpr (resource : CustomResource) : ThirdPartyResource :=
  {| TPR_ObjectMeta := {| ObjectMeta_Name := tprName resource |};
     TPR_Versions := [ {| APIVersion_Name := Version resource |} ];
     TPR_Description := "ThirdPartyResource for " ++ Name resource |}.

Definition createTPR {W} (context : Context W) (resource : CustomResource)
    : M W (option error) :=
  let tpr := createTPR_tpr resource in
  r <- call (ThirdPartyResources_Create (Clientset context) tpr)
            (fun r => EvTPRCreate tpr (errOf r)) ;;
  match errOf r with
  | Some err =>
      if negb (IsAlreadyExists err)
      then ret (Some (ErrorString
                        ("failed to create " ++ Name resource ++ " TPR. " ++ Error err)))
      else ret None
  | None => ret None
  end.

(** *** waitForTPRInit *)

Definition uri (resource : CustomResource) : string :=
  "apis/" ++ Group resource ++ "/" ++ Version resource ++ "/" ++ Plural resource.

(** The condition function handed to [wait.Poll] by [waitForTPRInit]. *)
Definition waitForTPRInit_condition {W} (context : Context W) (u : string)
    : M W (bool * option error) :=
  r <- call (RESTClient_DoRaw (Clientset context) u)
            (fun r => EvDoRaw u (errOf r)) ;;
  match errOf r with
  | Some err =>
      if IsNotFound err
      then ret (false, None)
      else ret (false, Some err)
  | None => ret (true, None)
  end.

(** The [err := wait.Poll(...)] statement of [waitForTPRInit]. *)
Definition waitForTPRInit_poll {W} `{PollClock} (context : Context W) (resource : CustomResource)
    : M W (option error) :=
  Poll (Interval context) (Timeout context)
       (waitForTPRInit_condition context (uri resource)).

Definition waitForTPRInit {W} `{PollClock} (context : Context W) (resource : CustomResource)
    : M W (option error) :=
  err <- waitForTPRInit_poll context resource ;;
  match err with
  | Some e =>
      deleteErr <- call (ThirdPartyResources_Delete (Clientset context) (tprName resource))
                        (EvTPRDelete (tprName resource)) ;;
      match deleteErr with
      | Some _ => ret (NewAggregate [err; deleteErr])
      | None => ret (Some e)
      end
  | None => ret None
  end.

(** *** CreateCustomResources *)

(** CreateCustomResources creates the given custom resources and waits
    for them to initialize.  The resource is of kind CRD if the Kubernetes
    server is 1.7.0 and above, of kind TPR if it is below 1.7.0. *)
Definition CreateCustomResources {W} `{VersionLib} `{PollClock} (context : Context W)
    (resources : list CustomResource) : M W (Outcome (option error)) :=
  sv <- call (ServerVersion (Clientset context)) EvServerVersion ;;
  match sv with
  | inr err =>
      ret (Returned (Some (ErrorString ("Error getting server version: " ++ Error err))))
  | inl serverVersion =>
      match MustParseSemantic (GitVersion serverVersion) with
      | Panicked p => ret (Panicked p)
      | Returned kubeVersion =>
          match MustParseSemantic serverVersionV170 with
          | Panicked p => ret (Panicked p)
          | Returned v170 =>
              if AtLeast kubeVersion v170 then
                lastErr <- forRange (createCRD context) resources None ;;
                lastErr <- forRange (waitForCRDInit context) resources lastErr ;;
                ret (Returned lastErr)
              else
                lastErr <- forRange (createTPR context) resources None ;;
                lastErr <- forRange (waitForTPRInit context) resources lastErr ;;
                ret (Returned lastErr)
          end
      end
  end.


(** ** Vocabulary of the properties *)

(** The body of the registration sweep and of the waiting sweep, by
    protocol: [true] is the modern (CRD) one, [false] the legacy (TPR) one. *)
Definition submit {W} (modern : bool) (context : Context W)
    : CustomResource -> M W (option error) :=
  if modern then createCRD context else createTPR context.

Definition await {W} `{PollClock} (modern : bool) (context : Context W)
    : CustomResource -> M W (option error) :=
  if modern then waitForCRDInit context else waitForTPRInit context.

(** What the cluster answers to [n] successive calls of one operation,
    starting in world [w]. *)
Fixpoint answers {W A} (op : W -> W * A) (n : nat) (w : W) : list A :=
  match n with
  | O => []
  | S n' => let (w1, a) := op w in a :: answers op n' w1
  end.

(** The world after those [n] calls. *)
Fixpoint after {W A} (op : W -> W * A) (n : nat) (w : W) : W :=
  match n with
  | O => w
  | S n' => after op n' (fst (op w))
  end.

(** The two terminal conditions of the modern wait. *)
Definition establishedTrue (cond : CustomResourceDefinitionCondition) : bool :=
  (Cond_Type cond =? Established) && (Cond_Status cond =? ConditionTrue).

Definition namesRejected (cond : CustomResourceDefinitionCondition) : bool :=
  (Cond_Type cond =? NamesAccepted) && (Cond_Status cond =? ConditionFalse).

Definition isTerminal (cond : CustomResourceDefinitionCondition) : bool :=
  establishedTrue cond || namesRejected cond.

(** The conditions of a list of snapshots, in poll order and then in the
    order of each snapshot. *)
Definition conditionSequence (crds : list CustomResourceDefinition)
    : list CustomResourceDefinitionCondition :=
  flat_map (fun crd => Conditions (CRD_Status crd)) crds.

(** Events of the registration sweep and of the waiting sweep. *)
Definition isSubmission (ev : Event) : bool :=
  match ev with
  | EvCRDCreate _ _ | EvTPRCreate _ _ => true
  | _ => false
  end.

Definition isReadinessCheck (ev : Event) : bool :=
  match ev with
  | EvCRDGet _ _ | EvDoRaw _ _ | EvTPRDelete _ _ => true
  | _ => false
  end.

(** [ev] is the submission of [resource]'s declaration in the given
    protocol, whatever the answer. *)
Definition isSubmissionOf (modern : bool) (resource : CustomResource)
    (ev : Event) : Prop :=
  match ev with
  | EvCRDCreate crd _ => modern = true /\ crd = createCRD_crd resource
  | EvTPRCreate tpr _ => modern = false /\ tpr = createTPR_tpr resource
  | _ => False
  end.

(** [ev] is a poll issued for [resource] by its wait in the given protocol. *)
Definition isPollOf (modern : bool) (resource : CustomResource)
    (ev : Event) : Prop :=
  match ev with
  | EvCRDGet name _ => modern = true /\ name = crdName resource
  | EvDoRaw u _ => modern = false /\ u = uri resource
  | _ => False
  end.

(** [ev] belongs to the wait of [resource]: a poll, or the legacy
    compensating delete. *)
Definition isWaitEventOf (modern : bool) (resource : CustomResource)
    (ev : Event) : Prop :=
  match ev with
  | EvTPRDelete name _ => modern = false /\ name = tprName resource
  | _ => isPollOf modern resource ev
  end.

(** The events of one descriptor's wait: they start with a poll for it and
    all belong to it. *)
Definition isWaitOf (modern : bool) (resource : CustomResource)
    (seg : list Event) : Prop :=
  match seg with
  | [] => False
  | ev :: _ => isPollOf modern resource ev /\ Forall (isWaitEventOf modern resource) seg
  end.

(** The trace entry of a submission of [resource]'s declaration that the
    cluster refused with [err]. *)
Definition failedSubmission (modern : bool) (resource : CustomResource)
    (err : error) : Event :=
  if modern
  then EvCRDCreate (createCRD_crd resource) (Some err)
  else EvTPRCreate (createTPR_tpr resource) (Some err).

(** The calls of each protocol's API. *)
Definition isModernCall (ev : Event) : bool :=
  match ev with
  | EvCRDCreate _ _ | EvCRDGet _ _ => true
  | _ => false
  end.

Definition isLegacyCall (ev : Event) : bool :=
  match ev with
  | EvTPRCreate _ _ | EvTPRDelete _ _ | EvDoRaw _ _ => true
  | _ => false
  end.

(** One evaluation of a poll condition that calls [op] once, logs it with
    [ev] and turns the answer into a verdict with [f]. *)
Definition probe {W A} (op : W -> W * A) (ev : A -> Event)
    (f : A -> bool * option error) : M W (bool * option error) :=
  fun s =>
    let (w1, a) := op (world s) in
    ({| world := w1; trace := (trace s ++ [ev a])%list |}, f a).

(** The verdicts of the two poll conditions on one answer. *)
Definition crdVerdict (r : CustomResourceDefinition + error) : bool * option error :=
  match r with
  | inr err => (false, Some err)
  | inl crd => scanConditions (Conditions (CRD_Status crd))
  end.

Definition tprVerdict (r : string + error) : bool * option error :=
  match errOf r with
  | Some err => if IsNotFound err then (false, None) else (false, Some err)
  | None => (true, None)
  end.

(** What [wait.WaitFor] returns for a verdict that ends the wait. *)
Definition verdictResult (v : bool * option error) : option error := snd v.

(** What the cluster answers, in world [w], to the submission of
    [resource]'s declaration. *)
Definition submissionAnswer {W} (modern : bool) (context : Context W)
    (resource : CustomResource) (w : W) : option error :=
  if modern
  then errOf (snd (CustomResourceDefinitions_Create (APIExtensionClientset context)
                     (createCRD_crd resource) w))
  else errOf (snd (ThirdPartyResources_Create (Clientset context)
                     (createTPR_tpr resource) w)).

(** The two sweeps of one protocol, as [CreateCustomResources] runs them. *)
Definition registerThenWait {W} `{PollClock} (modern : bool) (context : Context W)
    (resources : list CustomResource) : M W (Outcome (option error)) :=
  lastErr <- forRange (submit modern context) resources None ;;
  lastErr <- forRange (await modern context) resources lastErr ;;
  ret (Returned lastErr).

(** The events a run added to the trace of [s], given its final state. *)
Definition newEvents {W} (s s' : St W) : list Event :=
  skipn (List.length (trace s)) (trace s').

(** The state right after the server version query. *)
Definition afterVersionQuery {W} (context : Context W) (s : St W) : St W :=
  fst (call (ServerVersion (Clientset context)) EvServerVersion s).

(** What the bodies of a sweep over [resources] return, one entry per
    descriptor in order, when the sweep starts in [s]. *)
Fixpoint outcomes {W} (body : CustomResource -> M W (option error))
    (resources : list CustomResource) (s : St W) : list (option error) :=
  match resources with
  | [] => []
  | resource :: rest =>
      let (s1, err) := body resource s in err :: outcomes body rest s1
  end.

(** The last non-nil entry of a list of results, nil when there is none. *)
Fixpoint lastError (results : list (option error)) : option error :=
  match results with
  | [] => None
  | r :: rest =>
      match lastError rest with
      | Some e => Some e
      | None => r
      end
  end.


(** ** A scripted cluster, for running the code on concrete inputs *)

Module Fake.

(** A small semantic-version reader in the style of the version package:
    an optional [v], three dot-separated numbers, then nothing, a
    pre-release after [-] or build metadata after [+]. *)
Record SimpleVersion := {
  components : list N;
  preRelease : string
}.

Definition digitOf (c : Ascii.ascii) : option N :=
  let n := Ascii.N_of_ascii c in
  if ((48 <=? n) && (n <=? 57))%N then Some (n - 48)%N else None.

Fixpoint readNumber (acc : option N) (s : string) : option N * string :=
  match s with
  | String c rest =>
      match digitOf c with
      | Some d =>
          readNumber (Some (10 * match acc with Some a => a | None => 0 end + d)%N) rest
      | None => (acc, s)
      end
  | EmptyString => (acc, s)
  end.

Definition illegal (str : string) : error :=
  ErrorString ("illegal version string " ++ str).

Definition parse (str : string) : SimpleVersion + error :=
  let body := match str with
              | String "v"%char rest => rest
              | _ => str
              end in
  match readNumber None body with
  | (Some major, String "."%char r1) =>
      match readNumber None r1 with
      | (Some minor, String "."%char r2) =>
          match readNumber None r2 with
          | (Some patch, extra) =>
              let nums := [major; minor; patch] in
              match extra with
              | EmptyString => inl {| components := nums; preRelease := "" |}
              | String "-"%char pre => inl {| components := nums; preRelease := pre |}
              | String "+"%char _ => inl {| components := nums; preRelease := "" |}
              | _ => inr (illegal str)
              end
          | _ => inr (illegal str)
          end
      | _ => inr (illegal str)
      end
  | _ => inr (illegal str)
  end.

Fixpoint compareComponents (a b : list N) : comparison :=
  match a, b with
  | x :: a', y :: b' =>
      match (x ?= y)%N with
      | Eq => compareComponents a' b'
      | c => c
      end
  | [], [] => Eq
  | [], _ :: _ => Lt
  | _ :: _, [] => Gt
  end.

Definition compareVersion (v other : SimpleVersion) : comparison :=
  match compareComponents (components v) (components other) with
  | Eq =>
      match preRelease v, preRelease other with
      | EmptyString, EmptyString => Eq
      | EmptyString, _ => Gt
      | _, EmptyString => Lt
      | p, q => String.compare p q
      end
  | c => c
  end.

Definition atLeast (v min : SimpleVersion) : bool :=
  match compareVersion v min with
  | Lt => false
  | _ => true
  end.

#[export] Instance versionLib : VersionLib :=
  {| SemVersion := SimpleVersion; ParseSemantic := parse; AtLeast := atLeast |}.

(** An ideal clock: one tick per whole interval that fits in the timeout. *)
#[export] Instance pollClock : PollClock :=
  {| pollTicks := fun interval timeout => Z.to_nat (timeout / interval) |}.

(** The world of the scripted cluster is the number of calls it has
    answered; a script gives each answer from that number and the call. *)
Record Script := {
  onServerVersion : VersionInfo + error;
  onCRDCreate : nat -> CustomResourceDefinition -> option error;
  onCRDGet : nat -> string -> CustomResourceDefinition + error;
  onTPRCreate : nat -> ThirdPartyResource -> option error;
  onTPRDelete : nat -> string -> option error;
  onDoRaw : nat -> string -> string + error
}.

Definition answerCreate {A} (obj : A) (err : option error) : A + error :=
  match err with
  | None => inl obj
  | Some e => inr e
  end.

Definition context (sc : Script) (interval timeout : Z) : Context nat :=
  {| Clientset :=
       {| ServerVersion := fun n => (S n, onServerVersion sc);
          ThirdPartyResources_Create :=
            fun tpr n => (S n, answerCreate tpr (onTPRCreate sc n tpr));
          ThirdPartyResources_Delete := fun name n => (S n, onTPRDelete sc n name);
          RESTClient_DoRaw := fun u n => (S n, onDoRaw sc n u) |};
     APIExtensionClientset :=
       {| CustomResourceDefinitions_Create :=
            fun crd n => (S n, answerCreate crd (onCRDCreate sc n crd));
          CustomResourceDefinitions_Get := fun name n => (S n, onCRDGet sc n name) |};
     Interval := interval;
     Timeout := timeout |}.

Definition start : St nat := {| world := 0; trace := [] |}.

Definition notFound : error :=
  StatusError StatusReasonNotFound "the server could not find the requested resource".

Definition alreadyExists : error :=
  StatusError StatusReasonAlreadyExists "already exists".

Definition quotaExceeded : error :=
  StatusError StatusReasonForbidden "quota exceeded".

Definition widget (name : string) : CustomResource :=
  {| Name := name; Plural := name ++ "s"; Group := "example.io";
     Version := "v1alpha1"; Scope := NamespaceScoped; Kind := "Widget" |}.

Definition condition (type status reason : string) : CustomResourceDefinitionCondition :=
  {| Cond_Type := type; Cond_Status := status; Cond_Reason := reason; Cond_Message := "" |}.

(** A stored declaration with the given conditions. *)
Definition stored (name : string) (conds : list CustomResourceDefinitionCondition)
    : CustomResourceDefinition :=
  {| CRD_ObjectMeta := {| ObjectMeta_Name := name |};
     CRD_Spec := CRD_Spec (createCRD_crd (widget "widget"));
     CRD_Status := {| Conditions := conds |} |}.

(** A cluster that accepts everything and reports every declaration
    established at once; the scripts below override parts of it. *)
Definition healthy (gitVersion : string) : Script :=
  {| onServerVersion := inl {| GitVersion := gitVersion |};
     onCRDCreate := fun _ _ => None;
     onCRDGet := fun _ name => inl (stored name [condition Established ConditionTrue "InitialNamesAccepted"]);
     onTPRCreate := fun _ _ => None;
     onTPRDelete := fun _ _ => None;
     onDoRaw := fun _ _ => inl "{}" |}.

(** Conditions of a declaration that is not settled yet. *)
Definition pending : list CustomResourceDefinitionCondition :=
  [condition NamesAccepted ConditionUnknown "NotAccepted";
   condition Established ConditionFalse "Installing"].

Definition conflictCond : CustomResourceDefinitionCondition :=
  condition NamesAccepted ConditionFalse "PluralConflict".

Definition establishedCond : CustomResourceDefinitionCondition :=
  condition Established ConditionTrue "InitialNamesAccepted".

(** Two polls show a pending declaration, every later one a naming
    conflict. *)
Definition conflictScript : Script :=
  {| onServerVersion := inl {| GitVersion := "v1.8.0" |};
     onCRDCreate := fun _ _ => None;
     onCRDGet := fun n name =>
       inl (stored name
              (if (n <? 2)%nat then pending
               else [condition Established ConditionFalse "Installing"; conflictCond]));
     onTPRCreate := fun _ _ => None;
     onTPRDelete := fun _ _ => None;
     onDoRaw := fun _ _ => inl "{}" |}.

(** The first poll shows a pending declaration, the second one an
    established declaration followed, in the same snapshot, by a naming
    conflict; every later poll would show the conflict alone. *)
Definition establishedThenConflictScript : Script :=
  {| onServerVersion := inl {| GitVersion := "v1.8.0" |};
     onCRDCreate := fun _ _ => None;
     onCRDGet := fun n name =>
       inl (stored name
              (if (n <? 1)%nat then pending
               else if (n <? 2)%nat then [establishedCond; conflictCond]
               else [conflictCond]));
     onTPRCreate := fun _ _ => None;
     onTPRDelete := fun _ _ => None;
     onDoRaw := fun _ _ => inl "{}" |}.

(** The probe path answers 404 three times, then 200. *)
Definition slowStartScript : Script :=
  {| onServerVersion := inl {| GitVersion := "v1.6.4" |};
     onCRDCreate := fun _ _ => None;
     onCRDGet := fun _ name => inl (stored name pending);
     onTPRCreate := fun _ _ => None;
     onTPRDelete := fun _ _ => None;
     onDoRaw := fun n _ => if (n <? 3)%nat then inr notFound else inl "{}" |}.

Definition storageDown : error :=
  StatusError StatusReasonInternalError "etcd unavailable".

(** The probe path never appears, and deletes fail. *)
Definition neverServedScript : Script :=
  {| onServerVersion := inl {| GitVersion := "v1.6.4" |};
     onCRDCreate := fun _ _ => None;
     onCRDGet := fun _ name => inl (stored name pending);
     onTPRCreate := fun _ _ => None;
     onTPRDelete := fun _ _ => Some storageDown;
     onDoRaw := fun _ _ => inr notFound |}.

(** Every declaration is registered already. *)
Definition registeredScript (gitVersion : string) : Script :=
  {| onServerVersion := inl {| GitVersion := gitVersion |};
     onCRDCreate := fun _ _ => Some alreadyExists;
     onCRDGet := onCRDGet (healthy gitVersion);
     onTPRCreate := fun _ _ => Some alreadyExists;
     onTPRDelete := fun _ _ => None;
     onDoRaw := fun _ _ => inl "{}" |}.

(** The submission of the gadget declaration is refused for quota; all
    else is healthy. *)
Definition quotaScript (gitVersion : string) : Script :=
  {| onServerVersion := inl {| GitVersion := gitVersion |};
     onCRDCreate := fun _ crd =>
       if ObjectMeta_Name (CRD_ObjectMeta crd) =? "gadgets.example.io"
       then Some quotaExceeded else None;
     onCRDGet := onCRDGet (healthy gitVersion);
     onTPRCreate := fun _ tpr =>
       if ObjectMeta_Name (TPR_ObjectMeta tpr) =? "gadget.example.io"
       then Some quotaExceeded else None;
     onTPRDelete := fun _ _ => None;
     onDoRaw := fun _ _ => inl "{}" |}.

Definition three : list CustomResource :=
  [widget "widget"; widget "gadget"; widget "gizmo"].

Definition v1_8_0 : SimpleVersion := {| components := [1; 8; 0]%N; preRelease := "" |}.
Definition v1_7_0 : SimpleVersion := {| components := [1; 7; 0]%N; preRelease := "" |}.
Definition v1_6_4 : SimpleVersion := {| components := [1; 6; 4]%N; preRelease := "" |}.


(** The server version cannot be fetched. *)
Definition unreachable : error :=
  StatusError StatusReasonInternalError "connection refused".

Definition unreachableScript : Script :=
  {| onServerVersion := inr unreachable;
     onCRDCreate := fun _ _ => None;
     onCRDGet := fun _ name => inl (stored name pending);
     onTPRCreate := fun _ _ => None;
     onTPRDelete := fun _ _ => None;
     onDoRaw := fun _ _ => inl "{}" |}.

(** One poll shows a pending declaration, the next one finds none. *)
Definition vanishedScript : Script :=
  {| onServerVersion := inl {| GitVersion := "v1.8.0" |};
     onCRDCreate := fun _ _ => None;
     onCRDGet := fun n name =>
       if (n <? 1)%nat then inl (stored name pending) else inr notFound;
     onTPRCreate := fun _ _ => None;
     onTPRDelete := fun _ _ => None;
     onDoRaw := fun _ _ => inl "{}" |}.

(** Every declaration stays pending for ever. *)
Definition pendingScript : Script :=
  {| onServerVersion := inl {| GitVersion := "v1.8.0" |};
     onCRDCreate := fun _ _ => None;
     onCRDGet := fun _ name => inl (stored name pending);
     onTPRCreate := fun _ _ => None;
     onTPRDelete := fun _ _ => None;
     onDoRaw := fun _ _ => inr notFound |}.

End Fake.

(** ** Properties *)

Section Properties.

Context {W : Type} {VL : VersionLib} {PC : PollClock}.

(** *** Calls and polls *)

Lemma call_run {A} (op : W -> W * A) (ev : A -> Event) (s : St W) :
  call op ev s =
  ({| world := fst (op (world s));
      trace := (trace s ++ [ev (snd (op (world s)))])%list |},
   snd (op (world s))).
Proof.
  unfold call. destruct (op (world s)); reflexivity.
Qed.

Lemma probe_run {A} (op : W -> W * A) ev f (s : St W) :
  probe op ev f s =
  ({| world := fst (op (world s));
      trace := (trace s ++ [ev (snd (op (world s)))])%list |},
   f (snd (op (world s)))).
Proof.
  unfold probe. destruct (op (world s)); reflexivity.
Qed.

Lemma WaitFor_ext (fn fn' : M W (bool * option error)) :
  (forall s, fn s = fn' s) ->
  forall ticks s, WaitFor ticks fn s = WaitFor ticks fn' s.
Proof.
  intros E ticks. induction ticks as [|ticks IH]; intros s; simpl; unfold bind;
    rewrite E; destruct (fn' s) as [s1 [[|] [e|]]]; auto.
Qed.

Lemma waitForCRDInit_condition_probe (ctx : Context W) name s :
  waitForCRDInit_condition ctx name s =
  probe (CustomResourceDefinitions_Get (APIExtensionClientset ctx) name)
        (EvCRDGet name) crdVerdict s.
Proof.
  unfold waitForCRDInit_condition, probe, bind, call.
  destruct (CustomResourceDefinitions_Get _ _ _) as [w1 [crd|e]]; reflexivity.
Qed.

Lemma waitForTPRInit_condition_probe (ctx : Context W) u s :
  waitForTPRInit_condition ctx u s =
  probe (RESTClient_DoRaw (Clientset ctx) u)
        (fun r => EvDoRaw u (errOf r)) tprVerdict s.
Proof.
  unfold waitForTPRInit_condition, probe, bind, call, tprVerdict.
  destruct (RESTClient_DoRaw _ _ _) as [w1 [body|e]]; simpl; auto.
  destruct (IsNotFound e); reflexivity.
Qed.

(** A wait whose first [length pre] polls are inconclusive and whose next
    poll is conclusive ends on that poll, with its verdict. *)
Lemma WaitFor_probe_stop {A} (op : W -> W * A) ev f :
  forall pre a ticks s,
    List.length pre <= ticks ->
    answers op (S (List.length pre)) (world s) = (pre ++ [a])%list ->
    Forall (fun x => f x = (false, None)) pre ->
    f a <> (false, None) ->
    WaitFor ticks (probe op ev f) s =
    ({| world := after op (S (List.length pre)) (world s);
        trace := (trace s ++ map ev (pre ++ [a]))%list |},
     verdictResult (f a)).
Proof.
  induction pre as [|x pre IH]; intros a ticks s Hk Hans Hpre Ha.
  - simpl in *. destruct (op (world s)) as [w1 a0] eqn:E.
    injection Hans as ->.
    destruct ticks; simpl; unfold bind; rewrite probe_run, E; simpl;
      destruct (f a) as [[|] [e|]]; try reflexivity; congruence.
  - destruct ticks as [|ticks]; [simpl in Hk; lia|].
    cbn [List.length] in Hans.
    change (answers op (S (S (List.length pre))) (world s))
      with (let (w1, a0) := op (world s) in a0 :: answers op (S (List.length pre)) w1) in Hans.
    destruct (op (world s)) as [w1 a0] eqn:E.
    simpl in Hans. injection Hans as -> Hans.
    inversion Hpre as [|? ? Hx Hpre']; subst.
    cbn [WaitFor]. unfold bind. rewrite probe_run, E. cbn [fst snd]. rewrite Hx.
    rewrite (IH a ticks _); cbn [world trace]; auto.
    + cbn [List.length after map app]. rewrite E. cbn [fst].
      rewrite <- app_assoc. reflexivity.
    + simpl in Hk. lia.
Qed.

(** A wait whose polls are all inconclusive evaluates the condition once
    per tick and once more, then times out. *)
Lemma WaitFor_probe_timeout {A} (op : W -> W * A) ev f :
  forall ticks s,
    Forall (fun x => f x = (false, None)) (answers op (S ticks) (world s)) ->
    WaitFor ticks (probe op ev f) s =
    ({| world := after op (S ticks) (world s);
        trace := (trace s ++ map ev (answers op (S ticks) (world s)))%list |},
     Some ErrWaitTimeout).
Proof.
  induction ticks as [|ticks IH]; intros s H.
  - simpl in *. unfold bind. rewrite probe_run.
    destruct (op (world s)) as [w1 a]. simpl in *.
    inversion H as [|? ? Ha _]; subst. rewrite Ha. reflexivity.
  - change (answers op (S (S ticks)) (world s))
      with (let (w1, a0) := op (world s) in a0 :: answers op (S ticks) w1) in *.
    cbn [WaitFor after]. unfold bind. rewrite probe_run.
    destruct (op (world s)) as [w1 a]. cbn [fst snd] in *.
    inversion H as [|? ? Ha H']; subst. rewrite Ha.
    rewrite IH by exact H'. cbn [world trace map].
    rewrite <- app_assoc. reflexivity.
Qed.

(** Every event a wait logs is one evaluation of its condition, and there
    is at least one. *)
Lemma WaitFor_probe_trace {A} (op : W -> W * A) ev f :
  forall ticks s, exists a rest,
    trace (fst (WaitFor ticks (probe op ev f) s)) =
    (trace s ++ map ev (a :: rest))%list.
Proof.
  induction ticks as [|ticks IH]; intros s; cbn [WaitFor]; unfold bind;
    rewrite probe_run; set (a := snd (op (world s)));
    destruct (f a) as [[|] [e|]]; cbn [fst trace];
    try (exists a, []; reflexivity).
  destruct (IH {| world := fst (op (world s));
                  trace := (trace s ++ [ev a])%list |}) as (b & rest & E).
  exists a, (b :: rest). rewrite E. cbn [trace]. rewrite <- app_assoc. reflexivity.
Qed.

(** A wait whose polls raise no error and one of which answers [true]
    succeeds, on that poll at the latest. *)
Lemma WaitFor_probe_success {A} (op : W -> W * A) ev f :
  forall pre a ticks s,
    List.length pre <= ticks ->
    answers op (S (List.length pre)) (world s) = (pre ++ [a])%list ->
    Forall (fun x => f x = (true, None) \/ f x = (false, None)) pre ->
    f a = (true, None) ->
    snd (WaitFor ticks (probe op ev f) s) = None /\
    exists n, n <= List.length pre /\
      trace (fst (WaitFor ticks (probe op ev f) s)) =
      (trace s ++ map ev (firstn (S n) (pre ++ [a])))%list.
Proof.
  induction pre as [|x pre IH]; intros a ticks s Hk Hans Hpre Ha.
  - simpl in Hans. destruct (op (world s)) as [w1 a0] eqn:E.
    injection Hans as ->.
    destruct ticks; cbn [WaitFor]; unfold bind; rewrite probe_run, E; cbn [fst snd];
      rewrite Ha; (split; [reflexivity | exists 0; split; [simpl; lia | reflexivity]]).
  - destruct ticks as [|ticks]; [simpl in Hk; lia|].
    cbn [List.length] in Hans.
    change (answers op (S (S (List.length pre))) (world s))
      with (let (w1, a0) := op (world s) in a0 :: answers op (S (List.length pre)) w1) in Hans.
    destruct (op (world s)) as [w1 a0] eqn:E.
    simpl in Hans. injection Hans as -> Hans.
    inversion Hpre as [|? ? Hx Hpre']; subst.
    cbn [WaitFor]. unfold bind. rewrite probe_run, E. cbn [fst snd].
    destruct Hx as [Hx|Hx]; rewrite Hx.
    + split; [reflexivity|]. exists 0. split; [lia | reflexivity].
    + destruct (IH a ticks {| world := w1; trace := (trace s ++ [ev x])%list |})
        as (R & n & Hn & T); auto.
      { simpl in Hk. lia. }
      split; [exact R|]. exists (S n). split; [simpl; lia|].
      rewrite T. cbn [trace]. rewrite <- app_assoc. reflexivity.
Qed.

(** *** The modern wait *)

Lemma establishedTrue_spec cond :
  establishedTrue cond = true <->
  Cond_Type cond = Established /\ Cond_Status cond = ConditionTrue.
Proof.
  unfold establishedTrue. rewrite andb_true_iff, !String.eqb_eq. tauto.
Qed.

Lemma namesRejected_spec cond :
  namesRejected cond = true <->
  Cond_Type cond = NamesAccepted /\ Cond_Status cond = ConditionFalse.
Proof.
  unfold namesRejected. rewrite andb_true_iff, !String.eqb_eq. tauto.
Qed.

(** One step of the loop over the conditions, by the kind of its head. *)
Lemma scanConditions_cons cond rest :
  scanConditions (cond :: rest) =
  if establishedTrue cond then (true, None)
  else if namesRejected cond
       then (false, Some (ErrorString ("Name conflict: " ++ Cond_Reason cond ++ newline)))
       else scanConditions rest.
Proof.
  unfold establishedTrue, namesRejected. cbn [scanConditions].
  destruct (Cond_Type cond =? Established) eqn:E1;
    destruct (Cond_Status cond =? ConditionTrue) eqn:E2;
    destruct (Cond_Type cond =? NamesAccepted) eqn:E3;
    destruct (Cond_Status cond =? ConditionFalse) eqn:E4; cbn [andb]; try reflexivity;
    apply String.eqb_eq in E1, E3; rewrite E1 in E3; discriminate E3.
Qed.

Lemma scanConditions_skip pre rest :
  Forall (fun c => isTerminal c = false) pre ->
  scanConditions (pre ++ rest) = scanConditions rest.
Proof.
  induction 1 as [|c pre Hc _ IH]; [reflexivity|].
  rewrite <- app_comm_cons, scanConditions_cons.
  unfold isTerminal in Hc. apply orb_false_iff in Hc as [-> ->]. exact IH.
Qed.

Lemma scanConditions_inconclusive conds :
  Forall (fun c => isTerminal c = false) conds ->
  scanConditions conds = (false, None).
Proof.
  intros H. rewrite <- (app_nil_r conds). now rewrite scanConditions_skip.
Qed.

Lemma crdVerdict_inconclusive crds :
  Forall (fun c => isTerminal c = false) (conditionSequence crds) ->
  Forall (fun r => crdVerdict r = (false, None)) (map inl crds).
Proof.
  unfold conditionSequence.
  induction crds as [|crd crds IH]; cbn [flat_map map]; intros H; constructor.
  - apply Forall_app in H as [H _]. now apply scanConditions_inconclusive.
  - apply Forall_app in H as [_ H]. auto.
Qed.

Lemma waitForCRDInit_run (ctx : Context W) resource s :
  waitForCRDInit ctx resource s =
  WaitFor (pollTicks (Interval ctx) (Timeout ctx))
    (probe (CustomResourceDefinitions_Get (APIExtensionClientset ctx) (crdName resource))
           (EvCRDGet (crdName resource)) crdVerdict) s.
Proof.
  unfold waitForCRDInit, Poll. apply WaitFor_ext.
  intros. apply waitForCRDInit_condition_probe.
Qed.

(** The outcome of the modern wait is that of the first terminal
    condition of the observed sequence. *)
Lemma waitForCRDInit_first_terminal (ctx : Context W) resource s crds crd pre cond post :
  List.length crds <= pollTicks (Interval ctx) (Timeout ctx) ->
  answers (CustomResourceDefinitions_Get (APIExtensionClientset ctx) (crdName resource))
          (S (List.length crds)) (world s) = (map inl crds ++ [inl crd])%list ->
  Conditions (CRD_Status crd) = (pre ++ cond :: post)%list ->
  Forall (fun c => isTerminal c = false) (conditionSequence crds ++ pre) ->
  isTerminal cond = true ->
  waitForCRDInit ctx resource s =
  ({| world := after (CustomResourceDefinitions_Get (APIExtensionClientset ctx) (crdName resource))
                     (S (List.length crds)) (world s);
      trace := (trace s ++ map (EvCRDGet (crdName resource)) (map inl crds ++ [inl crd]))%list |},
   if establishedTrue cond then None
   else Some (ErrorString ("Name conflict: " ++ Cond_Reason cond ++ newline))).
Proof.
  intros Hk Hans Hcrd Hprior Hcond.
  apply Forall_app in Hprior as [Hcrds Hpre].
  assert (V : crdVerdict (inl crd) =
              if establishedTrue cond then (true, None)
              else (false, Some (ErrorString ("Name conflict: " ++ Cond_Reason cond ++ newline)))).
  { cbn [crdVerdict]. rewrite Hcrd, (scanConditions_skip _ Hpre), scanConditions_cons.
    unfold isTerminal in Hcond.
    destruct (establishedTrue cond); [reflexivity|].
    cbn [orb] in Hcond. now rewrite Hcond. }
  rewrite waitForCRDInit_run.
  rewrite <- (length_map (@inl CustomResourceDefinition error) crds) in Hk, Hans |- *.
  rewrite WaitFor_probe_stop with (pre := map inl crds) (a := inl crd); auto.
  - rewrite V. destruct (establishedTrue cond); reflexivity.
  - now apply crdVerdict_inconclusive.
  - rewrite V. destruct (establishedTrue cond); discriminate.
Qed.

(** C2: in the modern path, when the polls so far succeeded and one of
    them, still within the poll budget, shows a condition NamesAccepted=false
    (the first one of the observed sequence) with no Established=true before
    it, the wait ends on that very poll, however much of the budget is left:
    it returns the error "Name conflict: <reason>" carrying that condition's
    reason, and the Get calls it has issued are exactly the polls up to that
    one. *)
Theorem waitForCRDInit_name_conflict (ctx : Context W) resource s crds crd pre cond post :
  List.length crds <= pollTicks (Interval ctx) (Timeout ctx) ->
  answers (CustomResourceDefinitions_Get (APIExtensionClientset ctx) (crdName resource))
          (S (List.length crds)) (world s) = (map inl crds ++ [inl crd])%list ->
  Conditions (CRD_Status crd) = (pre ++ cond :: post)%list ->
  Forall (fun c => establishedTrue c = false) (conditionSequence crds ++ pre) ->
  Forall (fun c => namesRejected c = false) (conditionSequence crds ++ pre) ->
  Cond_Type cond = NamesAccepted ->
  Cond_Status cond = ConditionFalse ->
  snd (waitForCRDInit ctx resource s) =
    Some (ErrorString ("Name conflict: " ++ Cond_Reason cond ++ newline)) /\
  trace (fst (waitForCRDInit ctx resource s)) =
    (trace s ++ map (EvCRDGet (crdName resource)) (map inl crds ++ [inl crd]))%list /\
  List.length (trace (fst (waitForCRDInit ctx resource s))) =
    List.length (trace s) + S (List.length crds).
Proof.
  intros Hk Hans Hcrd HnoE HnoN Hty Hst.
  assert (Hrej : namesRejected cond = true) by (apply namesRejected_spec; auto).
  assert (HnotE : establishedTrue cond = false).
  { destruct (establishedTrue cond) eqn:E; [|reflexivity].
    apply establishedTrue_spec in E as [E _]. rewrite Hty in E. discriminate E. }
  rewrite waitForCRDInit_first_terminal
    with (crds := crds) (crd := crd) (pre := pre) (cond := cond) (post := post); auto.
  - cbn [fst snd trace]. rewrite HnotE. repeat split.
    rewrite length_app, !length_map, length_app, length_map. simpl. lia.
  - rewrite Forall_forall in *. intros c Hc. unfold isTerminal.
    now rewrite (HnoE c Hc), (HnoN c Hc).
  - unfold isTerminal. now rewrite Hrej, orb_true_r.
Qed.

Lemma scanConditions_no_conflict conds :
  Forall (fun c => namesRejected c = false) conds ->
  scanConditions conds = (true, None) \/ scanConditions conds = (false, None).
Proof.
  induction 1 as [|c conds Hc _ IH]; [now right|].
  rewrite scanConditions_cons, Hc. destruct (establishedTrue c); auto.
Qed.

(** C3: in the modern path, when the first polls succeed and the observed
    condition sequence shows Established=true with no NamesAccepted=false
    before it (in poll order, then in the order of the snapshot), the wait
    reports success, on the poll that shows it at the latest; what follows
    that condition in its snapshot and what later polls would have answered
    (a conflict included) plays no part. *)
Theorem waitForCRDInit_established_first (ctx : Context W) resource s crds crd pre cond post :
  List.length crds <= pollTicks (Interval ctx) (Timeout ctx) ->
  answers (CustomResourceDefinitions_Get (APIExtensionClientset ctx) (crdName resource))
          (S (List.length crds)) (world s) = (map inl crds ++ [inl crd])%list ->
  Conditions (CRD_Status crd) = (pre ++ cond :: post)%list ->
  Forall (fun c => namesRejected c = false) (conditionSequence crds ++ pre) ->
  Cond_Type cond = Established ->
  Cond_Status cond = ConditionTrue ->
  snd (waitForCRDInit ctx resource s) = None /\
  exists n, n <= List.length crds /\
    trace (fst (waitForCRDInit ctx resource s)) =
    (trace s ++ map (EvCRDGet (crdName resource))
                    (firstn (S n) (map inl crds ++ [inl crd])))%list.
Proof.
  intros Hk Hans Hcrd Hprior Hty Hst.
  assert (HE : establishedTrue cond = true) by (apply establishedTrue_spec; auto).
  apply Forall_app in Hprior as [Hcrds Hpre].
  rewrite waitForCRDInit_run.
  rewrite <- (length_map (@inl CustomResourceDefinition error) crds) in Hk, Hans |- *.
  apply WaitFor_probe_success; auto.
  - clear Hk Hans. unfold conditionSequence in Hcrds.
    induction crds as [|c0 crds IH]; cbn [flat_map map] in *; constructor.
    + apply Forall_app in Hcrds as [H _]. now apply scanConditions_no_conflict.
    + apply Forall_app in Hcrds as [_ H]. auto.
  - cbn [crdVerdict]. rewrite Hcrd.
    assert (G : forall l, Forall (fun c => namesRejected c = false) l ->
                  scanConditions (l ++ cond :: post) = (true, None)).
    { induction 1 as [|c l Hc _ IH]; cbn [app]; rewrite scanConditions_cons.
      - now rewrite HE.
      - rewrite Hc. destruct (establishedTrue c); auto. }
    now apply G.
Qed.

(** *** The legacy wait *)

Lemma waitForTPRInit_poll_run (ctx : Context W) resource s :
  waitForTPRInit_poll ctx resource s =
  WaitFor (pollTicks (Interval ctx) (Timeout ctx))
    (probe (RESTClient_DoRaw (Clientset ctx) (uri resource))
           (fun r => EvDoRaw (uri resource) (errOf r)) tprVerdict) s.
Proof.
  unfold waitForTPRInit_poll, Poll. apply WaitFor_ext.
  intros. apply waitForTPRInit_condition_probe.
Qed.

Lemma tprVerdict_notFound (nfs : list error) :
  Forall (fun e => IsNotFound e = true) nfs ->
  Forall (fun r : string + error => tprVerdict r = (false, None)) (map inr nfs).
Proof.
  induction 1 as [|e nfs He _ IH]; cbn [map]; constructor; auto.
  unfold tprVerdict. cbn [errOf]. now rewrite He.
Qed.

(** A legacy wait that fails runs the compensating delete and nothing else. *)
Lemma waitForTPRInit_failed (ctx : Context W) resource s s1 err :
  waitForTPRInit_poll ctx resource s = (s1, Some err) ->
  waitForTPRInit ctx resource s =
  let r := ThirdPartyResources_Delete (Clientset ctx) (tprName resource) (world s1) in
  ({| world := fst r;
      trace := (trace s1 ++ [EvTPRDelete (tprName resource) (snd r)])%list |},
   match snd r with
   | Some deleteErr => Some (Aggregate [err; deleteErr])
   | None => Some err
   end).
Proof.
  intros H. unfold waitForTPRInit, bind. rewrite H, call_run.
  destruct (ThirdPartyResources_Delete _ _ _) as [w2 [de|]]; reflexivity.
Qed.

Lemma waitForTPRInit_succeeded (ctx : Context W) resource s s1 :
  waitForTPRInit_poll ctx resource s = (s1, None) ->
  waitForTPRInit ctx resource s = (s1, None).
Proof.
  intros H. unfold waitForTPRInit, bind. now rewrite H.
Qed.

(** C6: in the legacy path every poll is one existence probe of the URI
    apis/{group}/{version}/{pluralName}.  When the first polls are
    answered "not found" and the next one, still within the poll budget, is
    answered otherwise, the wait ends on that poll and not before: with
    success when the probe succeeded, with the probe's error when it failed
    otherwise.  With three "not found" answers and then a success, the wait
    succeeds on the fourth poll. *)
Theorem waitForTPRInit_probe_sequence (ctx : Context W) resource s nfs last :
  List.length nfs <= pollTicks (Interval ctx) (Timeout ctx) ->
  answers (RESTClient_DoRaw (Clientset ctx) (uri resource))
          (S (List.length nfs)) (world s) = (map inr nfs ++ [last])%list ->
  Forall (fun e => IsNotFound e = true) nfs ->
  (forall e, last = inr e -> IsNotFound e = false) ->
  uri resource =
    "apis/" ++ Group resource ++ "/" ++ Version resource ++ "/" ++ Plural resource /\
  snd (waitForTPRInit_poll ctx resource s) = errOf last /\
  trace (fst (waitForTPRInit_poll ctx resource s)) =
    (trace s ++ map (EvDoRaw (uri resource)) (map Some nfs ++ [errOf last]))%list /\
  (errOf last = None ->
   snd (waitForTPRInit ctx resource s) = None /\
   trace (fst (waitForTPRInit ctx resource s)) =
     (trace s ++ map (EvDoRaw (uri resource)) (map Some nfs ++ [None]))%list /\
   List.length (trace (fst (waitForTPRInit ctx resource s))) =
     List.length (trace s) + S (List.length nfs)).
Proof.
  intros Hk Hans Hnfs Hlast.
  assert (V : tprVerdict last <> (false, None) /\
              verdictResult (tprVerdict last) = errOf last).
  { unfold tprVerdict, verdictResult. destruct last as [body|e]; cbn [errOf].
    - split; [discriminate | reflexivity].
    - rewrite (Hlast e eq_refl). split; [discriminate | reflexivity]. }
  destruct V as [V1 V2].
  assert (P : waitForTPRInit_poll ctx resource s =
              ({| world := after (RESTClient_DoRaw (Clientset ctx) (uri resource))
                                 (S (List.length nfs)) (world s);
                  trace := (trace s ++ map (EvDoRaw (uri resource))
                                           (map Some nfs ++ [errOf last]))%list |},
               errOf last)).
  { rewrite waitForTPRInit_poll_run.
    rewrite <- (length_map (@inr string error) nfs) in Hk, Hans |- *.
    rewrite WaitFor_probe_stop with (pre := map inr nfs) (a := last); auto.
    - rewrite V2, !map_app, !map_map. reflexivity.
    - now apply tprVerdict_notFound. }
  split; [reflexivity|]. rewrite P. cbn [fst snd trace].
  split; [reflexivity|]. split; [reflexivity|].
  intros Hok. rewrite Hok in P.
  rewrite (waitForTPRInit_succeeded _ _ _ P). cbn [fst snd trace].
  split; [reflexivity|]. split; [reflexivity|].
  rewrite length_app, length_map, length_app, length_map. simpl. lia.
Qed.

(** A legacy wait all of whose probes are answered "not found" times out. *)
Lemma waitForTPRInit_poll_timeout (ctx : Context W) resource s nfs :
  answers (RESTClient_DoRaw (Clientset ctx) (uri resource))
          (S (pollTicks (Interval ctx) (Timeout ctx))) (world s) = map inr nfs ->
  Forall (fun e => IsNotFound e = true) nfs ->
  snd (waitForTPRInit_poll ctx resource s) = Some ErrWaitTimeout.
Proof.
  intros Hans Hnfs. rewrite waitForTPRInit_poll_run, WaitFor_probe_timeout.
  - reflexivity.
  - rewrite Hans. now apply tprVerdict_notFound.
Qed.

(** C1: in the legacy path, whenever the wait of a descriptor fails (with
    the error of a probe or with the timeout of the poll), the declaration
    named as [createTPR] named it is deleted, as the one call that follows
    the polls.  When the delete fails the result is the aggregate of the
    wait's error and the delete's error, in this order; when it succeeds the
    result is the wait's error itself. *)
Theorem waitForTPRInit_compensating_delete (ctx : Context W) resource s err :
  snd (waitForTPRInit_poll ctx resource s) = Some err ->
  let s1 := fst (waitForTPRInit_poll ctx resource s) in
  let answer := ThirdPartyResources_Delete (Clientset ctx) (tprName resource) (world s1) in
  tprName resource = ObjectMeta_Name (TPR_ObjectMeta (createTPR_tpr resource)) /\
  trace (fst (waitForTPRInit ctx resource s)) =
    (trace s1 ++ [EvTPRDelete (tprName resource) (snd answer)])%list /\
  world (fst (waitForTPRInit ctx resource s)) = fst answer /\
  (forall deleteErr, snd answer = Some deleteErr ->
     snd (waitForTPRInit ctx resource s) = Some (Aggregate [err; deleteErr])) /\
  (snd answer = None -> snd (waitForTPRInit ctx resource s) = Some err).
Proof.
  intros H s1 answer.
  assert (P : waitForTPRInit_poll ctx resource s = (s1, Some err)).
  { subst s1. destruct (waitForTPRInit_poll ctx resource s); simpl in *; congruence. }
  rewrite (waitForTPRInit_failed _ _ _ P). cbn zeta. fold answer.
  cbn [fst snd trace world]. repeat split.
  - intros de E. now rewrite E.
  - intros E. now rewrite E.
Qed.

(** *** Registration *)

Lemma createCRD_run (ctx : Context W) resource s :
  createCRD ctx resource s =
  let r := CustomResourceDefinitions_Create (APIExtensionClientset ctx)
             (createCRD_crd resource) (world s) in
  ({| world := fst r;
      trace := (trace s ++ [EvCRDCreate (createCRD_crd resource) (errOf (snd r))])%list |},
   match errOf (snd r) with
   | Some err =>
       if IsAlreadyExists err then None
       else Some (ErrorString ("failed to create " ++ Name resource ++ " CRD. " ++ Error err))
   | None => None
   end).
Proof.
  unfold createCRD, bind. rewrite call_run. cbn zeta.
  destruct (errOf _) as [e|]; [destruct (IsAlreadyExists e)|]; reflexivity.
Qed.

Lemma createTPR_run (ctx : Context W) resource s :
  createTPR ctx resource s =
  let r := ThirdPartyResources_Create (Clientset ctx) (createTPR_tpr resource) (world s) in
  ({| world := fst r;
      trace := (trace s ++ [EvTPRCreate (createTPR_tpr resource) (errOf (snd r))])%list |},
   match errOf (snd r) with
   | Some err =>
       if IsAlreadyExists err then None
       else Some (ErrorString ("failed to create " ++ Name resource ++ " TPR. " ++ Error err))
   | None => None
   end).
Proof.
  unfold createTPR, bind. rewrite call_run. cbn zeta.
  destruct (errOf _) as [e|]; [destruct (IsAlreadyExists e)|]; reflexivity.
Qed.

(** C5: in both protocols, when the cluster answers the submission of a
    descriptor's declaration with an "already exists" error, the creation
    function returns no error for it, and the registration sweep goes on to
    the remaining descriptors with its last error unchanged. *)
Theorem submit_already_exists (modern : bool) (ctx : Context W) resource s err :
  submissionAnswer modern ctx resource (world s) = Some err ->
  IsAlreadyExists err = true ->
  snd (submit modern ctx resource s) = None /\
  (modern = true -> snd (createCRD ctx resource s) = None) /\
  (modern = false -> snd (createTPR ctx resource s) = None) /\
  forall rest lastErr,
    forRange (submit modern ctx) (resource :: rest) lastErr s =
    forRange (submit modern ctx) rest lastErr (fst (submit modern ctx resource s)).
Proof.
  intros Hans Hae.
  assert (R : snd (submit modern ctx resource s) = None).
  { unfold submit, submissionAnswer in *. destruct modern.
    - rewrite createCRD_run. cbn zeta. cbn [snd]. now rewrite Hans, Hae.
    - rewrite createTPR_run. cbn zeta. cbn [snd]. now rewrite Hans, Hae. }
  split; [exact R|]. split; [|split].
  - intros ->. exact R.
  - intros ->. exact R.
  - intros rest lastErr. cbn [forRange]. unfold bind.
    destruct (submit modern ctx resource s) as [s1 e]. cbn [fst snd] in *.
    now rewrite R.
Qed.

(** A registration sweep against a cluster that refuses creations only
    with "already exists" returns no error. *)
Lemma forRange_submit_registered (modern : bool) (ctx : Context W) :
  (forall resource w err,
     submissionAnswer modern ctx resource w = Some err -> IsAlreadyExists err = true) ->
  forall resources s, snd (forRange (submit modern ctx) resources None s) = None.
Proof.
  intros H. induction resources as [|r rest IH]; intros s; [reflexivity|].
  cbn [forRange]. unfold bind.
  destruct (submit modern ctx r s) as [s1 e] eqn:E.
  assert (e = None) as ->; [|apply IH].
  specialize (H r (world s)).
  unfold submit, submissionAnswer in *. destruct modern.
  - rewrite createCRD_run in E. cbn zeta in E. injection E as _ <-.
    destruct (errOf _) as [e0|]; [|reflexivity]. now rewrite (H e0 eq_refl).
  - rewrite createTPR_run in E. cbn zeta in E. injection E as _ <-.
    destruct (errOf _) as [e0|]; [|reflexivity]. now rewrite (H e0 eq_refl).
Qed.

(** *** The two sweeps *)

Lemma submit_trace (modern : bool) (ctx : Context W) resource s :
  exists ev,
    trace (fst (submit modern ctx resource s)) = (trace s ++ [ev])%list /\
    isSubmissionOf modern resource ev.
Proof.
  unfold submit. destruct modern.
  - rewrite createCRD_run. cbn zeta. cbn [fst trace].
    eexists. split; [reflexivity|]. cbn. auto.
  - rewrite createTPR_run. cbn zeta. cbn [fst trace].
    eexists. split; [reflexivity|]. cbn. auto.
Qed.

Lemma await_trace (modern : bool) (ctx : Context W) resource s :
  exists seg,
    trace (fst (await modern ctx resource s)) = (trace s ++ seg)%list /\
    isWaitOf modern resource seg.
Proof.
  unfold await. destruct modern.
  - rewrite waitForCRDInit_run.
    destruct (WaitFor_probe_trace
                (CustomResourceDefinitions_Get (APIExtensionClientset ctx) (crdName resource))
                (EvCRDGet (crdName resource)) crdVerdict
                (pollTicks (Interval ctx) (Timeout ctx)) s) as (a & rest & E).
    eexists. split; [exact E|]. cbn [map isWaitOf isPollOf]. split; [auto|].
    apply Forall_forall. intros ev Hin.
    change (In ev (map (EvCRDGet (crdName resource)) (a :: rest))) in Hin.
    apply in_map_iff in Hin as (x & <- & _). cbn. auto.
  - destruct (WaitFor_probe_trace
                (RESTClient_DoRaw (Clientset ctx) (uri resource))
                (fun r => EvDoRaw (uri resource) (errOf r)) tprVerdict
                (pollTicks (Interval ctx) (Timeout ctx)) s) as (a & rest & E).
    rewrite <- waitForTPRInit_poll_run in E.
    assert (Hpolls : Forall (isWaitEventOf false resource)
                       (map (fun r => EvDoRaw (uri resource) (errOf r)) (a :: rest))).
    { apply Forall_forall. intros ev Hin.
      apply in_map_iff in Hin as (x & <- & _). cbn. auto. }
    destruct (waitForTPRInit_poll ctx resource s) as [s1 [err|]] eqn:P.
    + rewrite (waitForTPRInit_failed _ _ _ P). cbn zeta. cbn [fst trace] in *.
      rewrite E, <- app_assoc.
      eexists. split; [reflexivity|].
      cbn [map app isWaitOf isPollOf]. split; [auto|].
      change (Forall (isWaitEventOf false resource)
                (map (fun r => EvDoRaw (uri resource) (errOf r)) (a :: rest) ++
                 [EvTPRDelete (tprName resource)
                    (snd (ThirdPartyResources_Delete (Clientset ctx)
                            (tprName resource) (world s1)))])).
      apply Forall_app. split; [exact Hpolls|].
      constructor; [cbn; auto | constructor].
    + rewrite (waitForTPRInit_succeeded _ _ _ P). cbn [fst] in *.
      eexists. split; [exact E|]. cbn [map isWaitOf isPollOf]. split; [auto|].
      exact Hpolls.
Qed.

(** A sweep runs its body once per descriptor, in order, whatever the
    bodies return. *)
Lemma forRange_trace (P : CustomResource -> list Event -> Prop)
    (body : CustomResource -> M W (option error)) :
  (forall resource s, exists seg,
      trace (fst (body resource s)) = (trace s ++ seg)%list /\ P resource seg) ->
  forall resources lastErr s, exists segs,
    trace (fst (forRange body resources lastErr s)) = (trace s ++ List.concat segs)%list /\
    Forall2 P resources segs.
Proof.
  intros Hbody. induction resources as [|r rest IH]; intros lastErr s.
  - exists []. cbn. rewrite app_nil_r. auto.
  - cbn [forRange]. unfold bind.
    destruct (Hbody r s) as (seg & E & Hseg).
    destruct (body r s) as [s1 e]. cbn [fst] in E.
    destruct (IH (match e with Some e0 => Some e0 | None => lastErr end) s1)
      as (segs & E' & Hsegs).
    exists (seg :: segs). split; [|constructor; auto].
    rewrite E', E. cbn [List.concat]. now rewrite app_assoc.
Qed.

Lemma concat_singletons (P : CustomResource -> Event -> Prop) resources segs :
  Forall2 (fun r seg => exists ev, seg = [ev] /\ P r ev) resources segs ->
  Forall2 P resources (List.concat segs).
Proof.
  induction 1 as [|r seg resources segs (ev & -> & H) _ IH]; cbn; constructor; auto.
Qed.

Lemma registerThenWait_trace (modern : bool) (ctx : Context W) resources s :
  exists subs segs,
    trace (fst (registerThenWait modern ctx resources s)) =
      (trace s ++ subs ++ List.concat segs)%list /\
    Forall2 (isSubmissionOf modern) resources subs /\
    Forall2 (isWaitOf modern) resources segs.
Proof.
  unfold registerThenWait, bind.
  destruct (forRange_trace
              (fun r seg => exists ev, seg = [ev] /\ isSubmissionOf modern r ev)
              (submit modern ctx)) with (resources := resources) (lastErr := @None error) (s := s)
    as (ssegs & E1 & H1).
  { intros r s0. destruct (submit_trace modern ctx r s0) as (ev & E & H).
    exists [ev]. eauto. }
  destruct (forRange (submit modern ctx) resources None s) as [s1 e1]. cbn [fst] in E1.
  destruct (forRange_trace (isWaitOf modern) (await modern ctx))
    with (resources := resources) (lastErr := e1) (s := s1) as (segs & E2 & H2).
  { intros r s0. apply await_trace. }
  destruct (forRange (await modern ctx) resources e1 s1) as [s2 e2]. cbn [fst] in *.
  exists (List.concat ssegs), segs. split; [|split; auto].
  - cbn [fst ret]. rewrite E2, E1. now rewrite app_assoc.
  - now apply concat_singletons.
Qed.

(** *** CreateCustomResources *)

Lemma CreateCustomResources_run (ctx : Context W) resources s info kubeVersion v170 :
  snd (ServerVersion (Clientset ctx) (world s)) = inl info ->
  ParseSemantic (GitVersion info) = inl kubeVersion ->
  ParseSemantic serverVersionV170 = inl v170 ->
  CreateCustomResources ctx resources s =
  registerThenWait (AtLeast kubeVersion v170) ctx resources (afterVersionQuery ctx s).
Proof.
  intros Hsv Hk H170.
  unfold CreateCustomResources, afterVersionQuery, bind. rewrite call_run, Hsv.
  cbn [fst]. unfold MustParseSemantic. rewrite Hk, H170.
  unfold registerThenWait, submit, await, bind.
  destruct (AtLeast kubeVersion v170); reflexivity.
Qed.

Lemma afterVersionQuery_trace (ctx : Context W) s :
  trace (afterVersionQuery ctx s) =
  (trace s ++ [EvServerVersion (snd (ServerVersion (Clientset ctx) (world s)))])%list.
Proof.
  unfold afterVersionQuery. rewrite call_run. reflexivity.
Qed.

Lemma newEvents_app (s s' : St W) l :
  trace s' = (trace s ++ l)%list -> newEvents s s' = l.
Proof.
  intros E. unfold newEvents. rewrite E, skipn_app, skipn_all, Nat.sub_diag. reflexivity.
Qed.

(** The calls of a run whose version query and parses succeed: the query,
    one submission per descriptor in order, then one wait per descriptor
    in order. *)
Lemma CreateCustomResources_trace (ctx : Context W) resources s info kubeVersion v170 :
  snd (ServerVersion (Clientset ctx) (world s)) = inl info ->
  ParseSemantic (GitVersion info) = inl kubeVersion ->
  ParseSemantic serverVersionV170 = inl v170 ->
  exists subs segs,
    newEvents s (fst (CreateCustomResources ctx resources s)) =
      (EvServerVersion (inl info) :: subs ++ List.concat segs)%list /\
    Forall2 (isSubmissionOf (AtLeast kubeVersion v170)) resources subs /\
    Forall2 (isWaitOf (AtLeast kubeVersion v170)) resources segs.
Proof.
  intros Hsv Hk H170.
  rewrite (CreateCustomResources_run ctx resources s Hsv Hk H170).
  destruct (registerThenWait_trace (AtLeast kubeVersion v170) ctx resources
              (afterVersionQuery ctx s)) as (subs & segs & E & H1 & H2).
  exists subs, segs. split; [|auto].
  apply newEvents_app. rewrite E, afterVersionQuery_trace, Hsv, <- app_assoc.
  reflexivity.
Qed.

Lemma isSubmissionOf_kind modern resource ev :
  isSubmissionOf modern resource ev ->
  isSubmission ev = true /\ isReadinessCheck ev = false /\
  isModernCall ev = modern /\ isLegacyCall ev = negb modern.
Proof.
  destruct ev; cbn; try tauto; intros [-> _]; auto.
Qed.

Lemma isWaitEventOf_kind modern resource ev :
  isWaitEventOf modern resource ev ->
  isSubmission ev = false /\ isReadinessCheck ev = true /\
  isModernCall ev = modern /\ isLegacyCall ev = negb modern.
Proof.
  destruct ev; cbn; try tauto; intros [-> _]; auto.
Qed.

Lemma isWaitOf_events modern resource seg :
  isWaitOf modern resource seg -> Forall (isWaitEventOf modern resource) seg.
Proof.
  destruct seg; cbn; [tauto | intros [_ H]; exact H].
Qed.

Lemma waits_kind modern resources segs :
  Forall2 (isWaitOf modern) resources segs ->
  Forall (fun ev => isSubmission ev = false /\ isReadinessCheck ev = true /\
                    isModernCall ev = modern /\ isLegacyCall ev = negb modern)
         (List.concat segs).
Proof.
  induction 1 as [|r seg resources segs H _ IH]; cbn [List.concat]; [constructor|].
  apply Forall_app. split; [|exact IH].
  apply isWaitOf_events in H. rewrite Forall_forall in *.
  intros ev Hin. eapply isWaitEventOf_kind; eauto.
Qed.

Lemma submissions_kind modern resources subs :
  Forall2 (isSubmissionOf modern) resources subs ->
  Forall (fun ev => isSubmission ev = true /\ isReadinessCheck ev = false /\
                    isModernCall ev = modern /\ isLegacyCall ev = negb modern) subs.
Proof.
  induction 1; constructor; eauto using isSubmissionOf_kind.
Qed.

(** Where a list made of a part without readiness checks and a part to
    follow is cut at a readiness check, the cut falls in the second part. *)
Lemma cut_at_readiness (a b before later : list Event) ev :
  (a ++ b)%list = (before ++ ev :: later)%list ->
  Forall (fun e => isReadinessCheck e = false) a ->
  isReadinessCheck ev = true ->
  exists polls, before = (a ++ polls)%list /\ b = (polls ++ ev :: later)%list.
Proof.
  revert before. induction a as [|x a IH]; intros before E Ha Hev.
  - exists before. auto.
  - inversion Ha as [|? ? Hx Ha']; subst.
    destruct before as [|y before]; cbn in E; injection E as -> E.
    + congruence.
    + destruct (IH before E Ha' Hev) as (polls & -> & ->). exists polls. auto.
Qed.

Lemma Forall2_In_split {A B} (P : A -> B -> Prop) l l' x :
  Forall2 P l l' -> In x l ->
  exists l1 y l2, l' = (l1 ++ y :: l2)%list /\ P x y.
Proof.
  induction 1 as [|a b l l' Hab _ IH]; intros Hin; [destruct Hin|].
  destruct Hin as [->|Hin].
  - exists [], b, l'. auto.
  - destruct (IH Hin) as (l1 & y & l2 & -> & H). exists (b :: l1), y, l2. auto.
Qed.

(** C7: in a run whose version query and parses succeed, whatever the
    cluster answers to any call (so whatever fails), the calls made after
    the version query are one submission per descriptor of the input, in
    order, followed by one wait per descriptor of the input, in order, each
    wait starting with a poll for its descriptor. *)
Theorem CreateCustomResources_processes_every_descriptor
    (ctx : Context W) resources s info kubeVersion v170 :
  snd (ServerVersion (Clientset ctx) (world s)) = inl info ->
  ParseSemantic (GitVersion info) = inl kubeVersion ->
  ParseSemantic serverVersionV170 = inl v170 ->
  exists subs segs,
    newEvents s (fst (CreateCustomResources ctx resources s)) =
      (EvServerVersion (inl info) :: subs ++ List.concat segs)%list /\
    Forall2 (isSubmissionOf (AtLeast kubeVersion v170)) resources subs /\
    Forall2 (isWaitOf (AtLeast kubeVersion v170)) resources segs.
Proof.
  apply CreateCustomResources_trace.
Qed.

(** C8: in a run whose version query and parses succeed, cut the calls of
    the run at any readiness check (a poll or a compensating delete): the
    calls before it hold the submissions of all the descriptors, one each in
    the order of the input, and no submission comes at or after it. *)
Theorem CreateCustomResources_registers_before_waiting
    (ctx : Context W) resources s info kubeVersion v170 before ev later :
  snd (ServerVersion (Clientset ctx) (world s)) = inl info ->
  ParseSemantic (GitVersion info) = inl kubeVersion ->
  ParseSemantic serverVersionV170 = inl v170 ->
  newEvents s (fst (CreateCustomResources ctx resources s)) = (before ++ ev :: later)%list ->
  isReadinessCheck ev = true ->
  (exists subs polls,
      before = (EvServerVersion (inl info) :: subs ++ polls)%list /\
      Forall2 (isSubmissionOf (AtLeast kubeVersion v170)) resources subs /\
      Forall (fun e => isReadinessCheck e = true) polls) /\
  Forall (fun e => isSubmission e = false) (ev :: later).
Proof.
  intros Hsv Hk H170 Hcut Hev.
  destruct (CreateCustomResources_trace ctx resources s Hsv Hk H170)
    as (subs & segs & E & Hsubs & Hsegs).
  rewrite Hcut in E.
  pose proof (submissions_kind Hsubs) as Ks.
  pose proof (waits_kind Hsegs) as Kw.
  symmetry in E.
  destruct (@cut_at_readiness (EvServerVersion (inl info) :: subs) (List.concat segs)
              before later ev E) as (polls & -> & Eb); auto.
  { constructor; [reflexivity|]. rewrite Forall_forall in *. intros e He. now apply Ks. }
  rewrite Eb in Kw. apply Forall_app in Kw as [Kp Kl]. split.
  - exists subs, polls. split; [reflexivity|]. split; [exact Hsubs|].
    rewrite Forall_forall in *. intros e He. now apply Kp.
  - rewrite Forall_forall in *. intros e He. now apply Kl.
Qed.

(** C10: in a run whose version query and parses succeed, a descriptor of
    the input whose submission was refused with an error that registration
    reports is polled all the same by the waiting sweep, after that
    submission. *)
Theorem CreateCustomResources_waits_after_failed_submission
    (ctx : Context W) resources s info kubeVersion v170 resource err :
  snd (ServerVersion (Clientset ctx) (world s)) = inl info ->
  ParseSemantic (GitVersion info) = inl kubeVersion ->
  ParseSemantic serverVersionV170 = inl v170 ->
  In resource resources ->
  In (failedSubmission (AtLeast kubeVersion v170) resource err)
     (newEvents s (fst (CreateCustomResources ctx resources s))) ->
  IsAlreadyExists err = false ->
  exists before poll later,
    newEvents s (fst (CreateCustomResources ctx resources s)) =
      (before ++ poll :: later)%list /\
    In (failedSubmission (AtLeast kubeVersion v170) resource err) before /\
    isPollOf (AtLeast kubeVersion v170) resource poll.
Proof.
  intros Hsv Hk H170 Hin Hfail _.
  destruct (CreateCustomResources_trace ctx resources s Hsv Hk H170)
    as (subs & segs & E & Hsubs & Hsegs).
  rewrite E in *.
  destruct (@Forall2_In_split _ _ _ _ _ _ Hsegs Hin) as (segs1 & seg & segs2 & -> & Hseg).
  destruct seg as [|poll seg]; [destruct Hseg|]. destruct Hseg as [Hpoll _].
  exists (EvServerVersion (inl info) :: subs ++ List.concat segs1)%list, poll,
         (seg ++ List.concat segs2)%list.
  split; [|split; [|exact Hpoll]].
  - rewrite concat_app. cbn [List.concat app]. rewrite <- app_assoc. reflexivity.
  - pose proof (waits_kind Hsegs) as Kw. rewrite Forall_forall in Kw.
    destruct Hfail as [Hfail|Hfail].
    + unfold failedSubmission in Hfail. destruct (AtLeast kubeVersion v170); discriminate.
    + apply in_app_or in Hfail as [Hfail|Hfail].
      * right. apply in_or_app. now left.
      * apply Kw in Hfail as [Hfail _]. unfold failedSubmission in Hfail.
        destruct (AtLeast kubeVersion v170); discriminate.
Qed.

(** C4: when the server version string parses as a semantic version (and
    the threshold constant v1.7.0 parses), the run after the version query
    is the modern one (the sweep of [createCRD], then the sweep of
    [waitForCRDInit], every call a CRD call) when the version is at least
    the threshold, and the legacy one (the sweep of [createTPR], then the
    sweep of [waitForTPRInit], every call a TPR, probe or delete call) when
    it is not; with n descriptors at least 2n such calls are made. *)
Theorem CreateCustomResources_selects_protocol
    (ctx : Context W) resources s info kubeVersion v170 :
  snd (ServerVersion (Clientset ctx) (world s)) = inl info ->
  ParseSemantic (GitVersion info) = inl kubeVersion ->
  ParseSemantic serverVersionV170 = inl v170 ->
  (AtLeast kubeVersion v170 = true ->
     CreateCustomResources ctx resources s =
       (lastErr <- forRange (createCRD ctx) resources None ;;
        lastErr <- forRange (waitForCRDInit ctx) resources lastErr ;;
        ret (Returned lastErr)) (afterVersionQuery ctx s) /\
     Forall (fun ev => isModernCall ev = true /\ isLegacyCall ev = false)
            (newEvents (afterVersionQuery ctx s)
                       (fst (CreateCustomResources ctx resources s)))) /\
  (AtLeast kubeVersion v170 = false ->
     CreateCustomResources ctx resources s =
       (lastErr <- forRange (createTPR ctx) resources None ;;
        lastErr <- forRange (waitForTPRInit ctx) resources lastErr ;;
        ret (Returned lastErr)) (afterVersionQuery ctx s) /\
     Forall (fun ev => isLegacyCall ev = true /\ isModernCall ev = false)
            (newEvents (afterVersionQuery ctx s)
                       (fst (CreateCustomResources ctx resources s)))) /\
  2 * List.length resources <=
    List.length (newEvents (afterVersionQuery ctx s)
                           (fst (CreateCustomResources ctx resources s))).
Proof.
  intros Hsv Hk H170.
  pose proof (CreateCustomResources_run ctx resources s Hsv Hk H170) as R.
  destruct (registerThenWait_trace (AtLeast kubeVersion v170) ctx resources
              (afterVersionQuery ctx s)) as (subs & segs & E & Hsubs & Hsegs).
  rewrite <- R in E. apply newEvents_app in E. rewrite E.
  pose proof (submissions_kind Hsubs) as Ks.
  pose proof (waits_kind Hsegs) as Kw.
  assert (K : Forall (fun ev => isModernCall ev = AtLeast kubeVersion v170 /\
                                isLegacyCall ev = negb (AtLeast kubeVersion v170))
                     (subs ++ List.concat segs)).
  { apply Forall_app. split; rewrite Forall_forall in *; intros e He.
    - now apply Ks. - now apply Kw. }
  split; [|split].
  - intros M. rewrite M in *. split; [exact R|].
    rewrite Forall_forall in *. intros e He. now apply K.
  - intros M. rewrite M in *. split; [exact R|].
    rewrite Forall_forall in *. intros e He. destruct (K e He). auto.
  - rewrite length_app, <- (Forall2_length Hsubs).
    assert (L : forall rs ss, Forall2 (isWaitOf (AtLeast kubeVersion v170)) rs ss ->
                  List.length rs <= List.length (List.concat ss)).
    { induction 1 as [|r seg rs ss Hseg _ IH]; cbn [List.concat List.length]; [lia|].
      rewrite length_app. destruct seg; [destruct Hseg|]. simpl. lia. }
    specialize (L _ _ Hsegs). lia.
Qed.

(** C9: when the server version string does not parse as a semantic
    version, [CreateCustomResources] panics with the parse error right
    after the version query: that query is the only call of the run, so
    nothing is submitted and nothing is polled. *)
Theorem CreateCustomResources_unparseable_version
    (ctx : Context W) resources s info err :
  snd (ServerVersion (Clientset ctx) (world s)) = inl info ->
  ParseSemantic (GitVersion info) = inr err ->
  snd (CreateCustomResources ctx resources s) = Panicked err /\
  fst (CreateCustomResources ctx resources s) = afterVersionQuery ctx s /\
  newEvents s (fst (CreateCustomResources ctx resources s)) = [EvServerVersion (inl info)] /\
  Forall (fun ev => isSubmission ev = false /\ isReadinessCheck ev = false)
         (newEvents s (fst (CreateCustomResources ctx resources s))).
Proof.
  intros Hsv Hp.
  assert (R : CreateCustomResources ctx resources s = (afterVersionQuery ctx s, Panicked err)).
  { unfold CreateCustomResources, afterVersionQuery, bind. rewrite call_run, Hsv.
    cbn [fst]. unfold MustParseSemantic. now rewrite Hp. }
  rewrite R. cbn [fst snd].
  assert (E : newEvents s (afterVersionQuery ctx s) = [EvServerVersion (inl info)]).
  { apply newEvents_app. now rewrite afterVersionQuery_trace, Hsv. }
  rewrite E. repeat split. constructor; [split; reflexivity | constructor].
Qed.

(** *** Further properties of the code *)

(** X1: when the server version cannot be fetched, [CreateCustomResources]
    returns the error "Error getting server version: <cause>" and the
    version query is the only call of the run, whatever the descriptors. *)
Theorem CreateCustomResources_version_query_fails
    (ctx : Context W) resources s err :
  snd (ServerVersion (Clientset ctx) (world s)) = inr err ->
  snd (CreateCustomResources ctx resources s) =
    Returned (Some (ErrorString ("Error getting server version: " ++ Error err))) /\
  fst (CreateCustomResources ctx resources s) = afterVersionQuery ctx s /\
  newEvents s (fst (CreateCustomResources ctx resources s)) = [EvServerVersion (inr err)].
Proof.
  intros Hsv.
  assert (R : CreateCustomResources ctx resources s =
              (afterVersionQuery ctx s,
               Returned (Some (ErrorString ("Error getting server version: " ++ Error err))))).
  { unfold CreateCustomResources, afterVersionQuery, bind. rewrite call_run, Hsv.
    reflexivity. }
  rewrite R. cbn [fst snd]. repeat split.
  apply newEvents_app. now rewrite afterVersionQuery_trace, Hsv.
Qed.

(** X2: in both protocols a creation makes exactly one call, the
    submission of the descriptor's declaration.  It returns nil exactly when
    the cluster accepted the declaration or refused it as already existing;
    any error it returns is "failed to create <name> CRD. <cause>" (TPR in
    the legacy protocol) for the descriptor's singular name and the text of
    the refusal. *)
Theorem submit_result (modern : bool) (ctx : Context W) resource s :
  (snd (submit modern ctx resource s) = None <->
   submissionAnswer modern ctx resource (world s) = None \/
   exists cause, submissionAnswer modern ctx resource (world s) = Some cause /\
                 IsAlreadyExists cause = true) /\
  (forall e, snd (submit modern ctx resource s) = Some e ->
     exists cause, submissionAnswer modern ctx resource (world s) = Some cause /\
       IsAlreadyExists cause = false /\
       e = ErrorString ("failed to create " ++ Name resource
                          ++ (if modern then " CRD. " else " TPR. ") ++ Error cause)) /\
  exists ev, newEvents s (fst (submit modern ctx resource s)) = [ev] /\
             isSubmissionOf modern resource ev.
Proof.
  assert (R : snd (submit modern ctx resource s) =
              match submissionAnswer modern ctx resource (world s) with
              | Some cause =>
                  if IsAlreadyExists cause then None
                  else Some (ErrorString ("failed to create " ++ Name resource
                               ++ (if modern then " CRD. " else " TPR. ") ++ Error cause))
              | None => None
              end).
  { unfold submit, submissionAnswer. destruct modern.
    - rewrite createCRD_run. reflexivity.
    - rewrite createTPR_run. reflexivity. }
  rewrite R. split; [|split].
  - destruct (submissionAnswer modern ctx resource (world s)) as [cause|].
    + destruct (IsAlreadyExists cause) eqn:E; split.
      * intros _. right. eauto.
      * reflexivity.
      * discriminate.
      * intros [H|(c & H & H')]; [discriminate|]. injection H as <-. congruence.
    + split; auto.
  - intros e. destruct (submissionAnswer modern ctx resource (world s)) as [cause|];
      [|discriminate].
    destruct (IsAlreadyExists cause) eqn:E; [discriminate|].
    intros H. injection H as <-. eauto.
  - destruct (submit_trace modern ctx resource s) as (ev & E & H).
    exists ev. split; [|exact H]. now apply newEvents_app.
Qed.

(** X3: the loop over the conditions of a snapshot gives the verdict of
    the first terminal condition (Established=true or NamesAccepted=false)
    in the order of the snapshot, and is inconclusive when there is none, so
    on an empty snapshot, on Established=false or unknown, on
    NamesAccepted=true or unknown and on conditions of any other type. *)
Theorem scanConditions_first_terminal conds :
  scanConditions conds =
  match find isTerminal conds with
  | None => (false, None)
  | Some cond =>
      if establishedTrue cond then (true, None)
      else (false, Some (ErrorString ("Name conflict: " ++ Cond_Reason cond ++ newline)))
  end.
Proof.
  induction conds as [|c conds IH]; [reflexivity|].
  rewrite scanConditions_cons. cbn [find]. unfold isTerminal at 1.
  destruct (establishedTrue c) eqn:E; cbn [orb].
  - now rewrite E.
  - destruct (namesRejected c) eqn:N.
    + now rewrite E.
    + exact IH.
Qed.

(** X4: in the modern path an error of the Get call ends the wait at
    once with that very error, whatever its kind: unlike the legacy probe, a
    "not found" answer is not polled again. *)
Theorem waitForCRDInit_get_error (ctx : Context W) resource s crds err :
  List.length crds <= pollTicks (Interval ctx) (Timeout ctx) ->
  answers (CustomResourceDefinitions_Get (APIExtensionClientset ctx) (crdName resource))
          (S (List.length crds)) (world s) = (map inl crds ++ [inr err])%list ->
  Forall (fun c => isTerminal c = false) (conditionSequence crds) ->
  snd (waitForCRDInit ctx resource s) = Some err /\
  newEvents s (fst (waitForCRDInit ctx resource s)) =
    map (EvCRDGet (crdName resource)) (map inl crds ++ [inr err])%list.
Proof.
  intros Hk Hans Hcrds.
  rewrite waitForCRDInit_run.
  rewrite <- (length_map (@inl CustomResourceDefinition error) crds) in Hk, Hans.
  rewrite WaitFor_probe_stop with (pre := map inl crds) (a := inr err); auto.
  - cbn [fst snd]. split; [reflexivity|]. now apply newEvents_app.
  - now apply crdVerdict_inconclusive.
  - discriminate.
Qed.

(** X5: in the modern path, when every poll of the budget shows a
    snapshot without terminal condition, the wait returns the timeout error
    of the poll after one Get per tick and one more; it makes no other call,
    so nothing is deleted. *)
Theorem waitForCRDInit_timeout (ctx : Context W) resource s crds :
  answers (CustomResourceDefinitions_Get (APIExtensionClientset ctx) (crdName resource))
          (S (pollTicks (Interval ctx) (Timeout ctx))) (world s) = map inl crds ->
  Forall (fun c => isTerminal c = false) (conditionSequence crds) ->
  snd (waitForCRDInit ctx resource s) = Some ErrWaitTimeout /\
  newEvents s (fst (waitForCRDInit ctx resource s)) =
    map (EvCRDGet (crdName resource)) (map inl crds) /\
  List.length (newEvents s (fst (waitForCRDInit ctx resource s))) =
    S (pollTicks (Interval ctx) (Timeout ctx)).
Proof.
  intros Hans Hcrds.
  assert (L : List.length crds = S (pollTicks (Interval ctx) (Timeout ctx))).
  { apply (f_equal (@List.length _)) in Hans. rewrite length_map in Hans.
    rewrite <- Hans. clear. generalize (world s).
    induction (S (pollTicks (Interval ctx) (Timeout ctx))) as [|n IH]; intros w;
      [reflexivity|].
    cbn [answers]. destruct (CustomResourceDefinitions_Get _ _ w). cbn. now rewrite IH. }
  rewrite waitForCRDInit_run, WaitFor_probe_timeout.
  - cbn [fst snd]. rewrite Hans.
    assert (E : newEvents s
                  {| world := after (CustomResourceDefinitions_Get (APIExtensionClientset ctx)
                                       (crdName resource))
                                    (S (pollTicks (Interval ctx) (Timeout ctx))) (world s);
                     trace := (trace s ++ map (EvCRDGet (crdName resource)) (map inl crds))%list |}
                = map (EvCRDGet (crdName resource)) (map inl crds))
      by now apply newEvents_app.
    rewrite E. repeat split. now rewrite !length_map.
  - rewrite Hans. now apply crdVerdict_inconclusive.
Qed.

(** X6: in the legacy path, when every probe of the budget is answered
    "not found", the wait probes once per tick and once more, then deletes
    the declaration; it returns the timeout error of the poll, aggregated
    with the delete's error when the delete fails. *)
Theorem waitForTPRInit_timeout (ctx : Context W) resource s nfs :
  answers (RESTClient_DoRaw (Clientset ctx) (uri resource))
          (S (pollTicks (Interval ctx) (Timeout ctx))) (world s) = map inr nfs ->
  Forall (fun e => IsNotFound e = true) nfs ->
  let deleted :=
    snd (ThirdPartyResources_Delete (Clientset ctx) (tprName resource)
           (after (RESTClient_DoRaw (Clientset ctx) (uri resource))
                  (S (pollTicks (Interval ctx) (Timeout ctx))) (world s))) in
  newEvents s (fst (waitForTPRInit ctx resource s)) =
    (map (EvDoRaw (uri resource)) (map Some nfs)
       ++ [EvTPRDelete (tprName resource) deleted])%list /\
  snd (waitForTPRInit ctx resource s) =
    match deleted with
    | Some deleteErr => Some (Aggregate [ErrWaitTimeout; deleteErr])
    | None => Some ErrWaitTimeout
    end.
Proof.
  intros Hans Hnfs deleted.
  assert (P : waitForTPRInit_poll ctx resource s =
              ({| world := after (RESTClient_DoRaw (Clientset ctx) (uri resource))
                                 (S (pollTicks (Interval ctx) (Timeout ctx))) (world s);
                  trace := (trace s ++ map (EvDoRaw (uri resource)) (map Some nfs))%list |},
               Some ErrWaitTimeout)).
  { rewrite waitForTPRInit_poll_run, WaitFor_probe_timeout.
    - rewrite Hans, !map_map. reflexivity.
    - rewrite Hans. now apply tprVerdict_notFound. }
  rewrite (waitForTPRInit_failed _ _ _ P). cbn zeta. cbn [fst snd world trace].
  fold deleted. split; [|reflexivity].
  apply newEvents_app. now rewrite <- app_assoc.
Qed.

(** A wait evaluates its condition on the cluster's successive answers, at
    least once and at most once per tick and once more. *)
Lemma WaitFor_probe_bounded {A} (op : W -> W * A) ev f :
  forall ticks s, exists polls,
    trace (fst (WaitFor ticks (probe op ev f) s)) = (trace s ++ map ev polls)%list /\
    polls = firstn (List.length polls) (answers op (S ticks) (world s)) /\
    1 <= List.length polls <= S ticks.
Proof.
  induction ticks as [|ticks IH]; intros s.
  - exists [snd (op (world s))]. cbn [WaitFor answers]. unfold bind.
    rewrite probe_run. destruct (op (world s)) as [w1 a]. cbn [fst snd].
    destruct (f a) as [[|] [e|]]; cbn; auto.
  - change (answers op (S (S ticks)) (world s))
      with (let (w1, a0) := op (world s) in a0 :: answers op (S ticks) w1).
    cbn [WaitFor]. unfold bind. rewrite probe_run.
    destruct (op (world s)) as [w1 a]. cbn [fst snd].
    destruct (f a) as [[|] [e|]];
      try (exists [a]; cbn; repeat split; auto; lia).
    destruct (IH {| world := w1; trace := (trace s ++ [ev a])%list |})
      as (polls & T & Hp & Hl).
    exists (a :: polls). cbn [world trace] in *. rewrite T, <- app_assoc.
    split; [reflexivity|]. split.
    + cbn [List.length firstn]. now rewrite <- Hp.
    + cbn [List.length]. lia.
Qed.

(** X7: whatever the cluster answers, the modern wait of a descriptor makes
    only Get calls on the name pluralName.group: at least one, at most one
    per tick of the poll plus one, answered by the cluster's successive
    answers in order. *)
Theorem waitForCRDInit_calls (ctx : Context W) resource s :
  exists polls,
    newEvents s (fst (waitForCRDInit ctx resource s)) =
      map (EvCRDGet (Plural resource ++ "." ++ Group resource)) polls /\
    polls = firstn (List.length polls)
              (answers (CustomResourceDefinitions_Get (APIExtensionClientset ctx)
                          (Plural resource ++ "." ++ Group resource))
                       (S (pollTicks (Interval ctx) (Timeout ctx))) (world s)) /\
    1 <= List.length polls <= S (pollTicks (Interval ctx) (Timeout ctx)).
Proof.
  rewrite waitForCRDInit_run.
  destruct (WaitFor_probe_bounded
              (CustomResourceDefinitions_Get (APIExtensionClientset ctx) (crdName resource))
              (EvCRDGet (crdName resource)) crdVerdict
              (pollTicks (Interval ctx) (Timeout ctx)) s) as (polls & T & Hp & Hl).
  exists polls. split; [|split; assumption]. now apply newEvents_app.
Qed.

(** X8: whatever the cluster answers, the legacy wait of a descriptor
    probes the descriptor's URI at least once and at most once per tick of
    the poll plus one, and then either returns nil without any further call,
    or deletes the declaration name.group (one call, the last of the wait)
    and returns an error: it deletes exactly when it fails. *)
Theorem waitForTPRInit_calls (ctx : Context W) resource s :
  exists polls,
    polls = firstn (List.length polls)
              (answers (RESTClient_DoRaw (Clientset ctx) (uri resource))
                       (S (pollTicks (Interval ctx) (Timeout ctx))) (world s)) /\
    1 <= List.length polls <= S (pollTicks (Interval ctx) (Timeout ctx)) /\
    ((snd (waitForTPRInit ctx resource s) = None /\
      newEvents s (fst (waitForTPRInit ctx resource s)) =
        map (fun a => EvDoRaw (uri resource) (errOf a)) polls) \/
     (snd (waitForTPRInit ctx resource s) <> None /\
      exists deleted,
        newEvents s (fst (waitForTPRInit ctx resource s)) =
          (map (fun a => EvDoRaw (uri resource) (errOf a)) polls
             ++ [EvTPRDelete (Name resource ++ "." ++ Group resource) deleted])%list)).
Proof.
  destruct (WaitFor_probe_bounded
              (RESTClient_DoRaw (Clientset ctx) (uri resource))
              (fun r => EvDoRaw (uri resource) (errOf r)) tprVerdict
              (pollTicks (Interval ctx) (Timeout ctx)) s) as (polls & T & Hp & Hl).
  rewrite <- waitForTPRInit_poll_run in T.
  exists polls. split; [exact Hp|]. split; [exact Hl|].
  destruct (waitForTPRInit_poll ctx resource s) as [s1 [err|]] eqn:P; cbn [fst] in T.
  - right. rewrite (waitForTPRInit_failed _ _ _ P). cbn zeta. cbn [fst snd]. split.
    + destruct (snd (ThirdPartyResources_Delete _ _ _)); discriminate.
    + eexists. apply newEvents_app. cbn [trace]. rewrite T, <- app_assoc. reflexivity.
  - left. rewrite (waitForTPRInit_succeeded _ _ _ P). cbn [fst snd].
    split; [reflexivity|]. now apply newEvents_app.
Qed.

(** *** What the whole operation returns *)

Lemma lastError_app a b :
  lastError (a ++ b) =
  match lastError b with
  | Some e => Some e
  | None => lastError a
  end.
Proof.
  induction a as [|x a IH]; cbn [app lastError].
  - now destruct (lastError b).
  - rewrite IH. now destruct (lastError b).
Qed.

Lemma lastError_None results :
  lastError results = None <-> Forall (fun r => r = None) results.
Proof.
  induction results as [|r results IH]; cbn [lastError].
  - split; auto.
  - destruct (lastError results) as [e|] eqn:E.
    + split; [discriminate|]. intros H. inversion H as [|? ? _ H']; subst.
      apply IH in H'. discriminate H'.
    + split.
      * intros ->. constructor; [reflexivity | now apply IH].
      * intros H. now inversion H.
Qed.

(** A sweep returns the last error its bodies returned, and the error it
    started with when they returned none. *)
Lemma forRange_result (body : CustomResource -> M W (option error)) :
  forall resources lastErr s,
    snd (forRange body resources lastErr s) =
    match lastError (outcomes body resources s) with
    | Some e => Some e
    | None => lastErr
    end.
Proof.
  induction resources as [|r rest IH]; intros lastErr s; [reflexivity|].
  cbn [forRange outcomes]. unfold bind.
  destruct (body r s) as [s1 x]. rewrite IH. cbn [lastError].
  destruct (lastError (outcomes body rest s1)); [reflexivity|].
  now destruct x.
Qed.

(** X9: when the version query and the parses succeed,
    [CreateCustomResources] returns normally, and what it returns is the last
    error that a creation or a wait returned, in the order the run made them
    (all creations, then all waits): an error of the registration sweep is
    returned only when no wait failed, and nil is returned exactly when
    every creation and every wait returned nil. *)
Theorem CreateCustomResources_returns_last_error
    (ctx : Context W) resources s info kubeVersion v170 :
  snd (ServerVersion (Clientset ctx) (world s)) = inl info ->
  ParseSemantic (GitVersion info) = inl kubeVersion ->
  ParseSemantic serverVersionV170 = inl v170 ->
  let modern := AtLeast kubeVersion v170 in
  let s0 := afterVersionQuery ctx s in
  let created := outcomes (submit modern ctx) resources s0 in
  let waited := outcomes (await modern ctx) resources
                  (fst (forRange (submit modern ctx) resources None s0)) in
  snd (CreateCustomResources ctx resources s) =
    Returned (lastError (created ++ waited)) /\
  (snd (CreateCustomResources ctx resources s) = Returned None <->
   Forall (fun r => r = None) (created ++ waited)).
Proof.
  intros Hsv Hk H170 modern s0 created waited.
  assert (R : snd (CreateCustomResources ctx resources s) =
              Returned (lastError (created ++ waited))).
  { rewrite (CreateCustomResources_run ctx resources s Hsv Hk H170).
    fold modern s0. unfold registerThenWait, bind.
    pose proof (forRange_result (submit modern ctx) resources None s0) as R1.
    fold created in R1. fold s0 in waited.
    destruct (forRange (submit modern ctx) resources None s0) as [s1 e1].
    cbn [fst snd] in *.
    pose proof (forRange_result (await modern ctx) resources e1 s1) as R2.
    fold waited in R2.
    destruct (forRange (await modern ctx) resources e1 s1) as [s2 e2].
    cbn [fst snd ret] in *. rewrite lastError_app, R2, R1.
    destruct (lastError waited); [reflexivity|].
    now destruct (lastError created). }
  split; [exact R|]. rewrite R, <- lastError_None. split.
  - intros H. now injection H.
  - intros ->. reflexivity.
Qed.




(** X11: the declaration [createCRD] submits carries every field of the
    descriptor: two descriptors that submit the same declaration are the
    same descriptor. *)
Theorem createCRD_crd_injective (resource resource' : CustomResource) :
  createCRD_crd resource = createCRD_crd resource' -> resource = resource'.
Proof.
  destruct resource, resource'. unfold createCRD_crd. cbn.
  intros H. injection H as _ -> -> -> -> -> ->. reflexivity.
Qed.

End Properties.

(** ** The properties on the scripted cluster *)

Import Fake.

(** Two pending snapshots, then a naming conflict: the wait fails on the
    third poll of a budget of eleven. *)
Lemma waitForCRDInit_name_conflict_witness :
  snd (waitForCRDInit (context conflictScript 1 10) (widget "widget") start) =
    Some (ErrorString ("Name conflict: " ++ Cond_Reason conflictCond ++ newline)) /\
  List.length (trace (fst (waitForCRDInit (context conflictScript 1 10) (widget "widget") start))) = 3.
Proof.
  destruct (@waitForCRDInit_name_conflict nat pollClock
              (context conflictScript 1 10) (widget "widget") start
              [stored "widgets.example.io" pending; stored "widgets.example.io" pending]
              (stored "widgets.example.io"
                 [condition Established ConditionFalse "Installing"; conflictCond])
              [condition Established ConditionFalse "Installing"] conflictCond [])
    as (R & _ & L).
  - vm_compute. lia.
  - reflexivity.
  - reflexivity.
  - repeat constructor.
  - repeat constructor.
  - reflexivity.
  - reflexivity.
  - split; [exact R | exact L].
Defined.

(** A pending snapshot, then one that lists Established=true before a
    conflict: success, although every later poll would show the conflict. *)
Lemma waitForCRDInit_established_first_witness :
  snd (waitForCRDInit (context establishedThenConflictScript 1 10) (widget "widget") start) = None.
Proof.
  destruct (@waitForCRDInit_established_first nat pollClock
              (context establishedThenConflictScript 1 10) (widget "widget") start
              [stored "widgets.example.io" pending]
              (stored "widgets.example.io" [establishedCond; conflictCond])
              [] establishedCond [conflictCond])
    as (R & _).
  - vm_compute. lia.
  - reflexivity.
  - reflexivity.
  - repeat constructor.
  - reflexivity.
  - reflexivity.
  - exact R.
Defined.

(** 404, 404, 404, then 200: the wait succeeds with exactly four probes. *)
Lemma waitForTPRInit_probe_sequence_witness :
  snd (waitForTPRInit (context slowStartScript 1 10) (widget "widget") start) = None /\
  trace (fst (waitForTPRInit (context slowStartScript 1 10) (widget "widget") start)) =
    [EvDoRaw "apis/example.io/v1alpha1/widgets" (Some notFound);
     EvDoRaw "apis/example.io/v1alpha1/widgets" (Some notFound);
     EvDoRaw "apis/example.io/v1alpha1/widgets" (Some notFound);
     EvDoRaw "apis/example.io/v1alpha1/widgets" None].
Proof.
  destruct (@waitForTPRInit_probe_sequence nat pollClock
              (context slowStartScript 1 10) (widget "widget") start
              [notFound; notFound; notFound] (inl "{}"))
    as (_ & _ & _ & H).
  - vm_compute. lia.
  - reflexivity.
  - repeat constructor.
  - intros e E. discriminate E.
  - destruct (H eq_refl) as (R & T & _). split; [exact R | exact T].
Defined.

(** Every probe is answered 404 and the delete fails: the timeout and the
    delete's error come back together. *)
Lemma waitForTPRInit_compensating_delete_witness :
  snd (waitForTPRInit (context neverServedScript 1 3) (widget "widget") start) =
    Some (Aggregate [ErrWaitTimeout; storageDown]).
Proof.
  destruct (@waitForTPRInit_compensating_delete nat pollClock
              (context neverServedScript 1 3) (widget "widget") start ErrWaitTimeout)
    as (_ & _ & _ & H & _).
  - reflexivity.
  - apply H. reflexivity.
Defined.

(** A declaration that exists already, in the modern protocol. *)
Lemma submit_already_exists_witness :
  snd (createCRD (context (registeredScript "v1.8.0") 1 10) (widget "widget") start) = None.
Proof.
  destruct (@submit_already_exists nat true
              (context (registeredScript "v1.8.0") 1 10) (widget "widget") start alreadyExists)
    as (_ & H & _).
  - reflexivity.
  - reflexivity.
  - apply H. reflexivity.
Defined.

(** Three descriptors, the second refused for quota: three submissions,
    then three waits. *)
Lemma CreateCustomResources_processes_every_descriptor_witness :
  exists subs segs,
    newEvents start (fst (CreateCustomResources (context (quotaScript "v1.8.0") 1 3) three start)) =
      (EvServerVersion (inl {| GitVersion := "v1.8.0" |}) :: subs ++ List.concat segs)%list /\
    Forall2 (isSubmissionOf (AtLeast v1_8_0 v1_7_0)) three subs /\
    Forall2 (isWaitOf (AtLeast v1_8_0 v1_7_0)) three segs.
Proof.
  apply (@CreateCustomResources_processes_every_descriptor nat versionLib pollClock
           (context (quotaScript "v1.8.0") 1 3) three start
           {| GitVersion := "v1.8.0" |} v1_8_0 v1_7_0).
  - reflexivity.
  - reflexivity.
  - reflexivity.
Defined.

(** The same run in the legacy protocol, cut at the probe for the second
    descriptor. *)
Lemma CreateCustomResources_registers_before_waiting_witness :
  Forall (fun e => isSubmission e = false)
    (EvDoRaw "apis/example.io/v1alpha1/gadgets" None ::
     skipn 6 (newEvents start
                (fst (CreateCustomResources (context (quotaScript "v1.6.4") 1 3) three start)))).
Proof.
  destruct (@CreateCustomResources_registers_before_waiting nat versionLib pollClock
              (context (quotaScript "v1.6.4") 1 3) three start
              {| GitVersion := "v1.6.4" |} v1_6_4 v1_7_0
              (firstn 5 (newEvents start
                 (fst (CreateCustomResources (context (quotaScript "v1.6.4") 1 3) three start))))
              (EvDoRaw "apis/example.io/v1alpha1/gadgets" None)
              (skipn 6 (newEvents start
                 (fst (CreateCustomResources (context (quotaScript "v1.6.4") 1 3) three start)))))
    as (_ & H).
  - reflexivity.
  - reflexivity.
  - reflexivity.
  - reflexivity.
  - reflexivity.
  - exact H.
Defined.

(** The descriptor refused for quota is polled after its submission. *)
Lemma CreateCustomResources_waits_after_failed_submission_witness :
  exists before poll later,
    newEvents start (fst (CreateCustomResources (context (quotaScript "v1.8.0") 1 3) three start)) =
      (before ++ poll :: later)%list /\
    In (failedSubmission (AtLeast v1_8_0 v1_7_0) (widget "gadget") quotaExceeded) before /\
    isPollOf (AtLeast v1_8_0 v1_7_0) (widget "gadget") poll.
Proof.
  apply (@CreateCustomResources_waits_after_failed_submission nat versionLib pollClock
           (context (quotaScript "v1.8.0") 1 3) three start
           {| GitVersion := "v1.8.0" |} v1_8_0 v1_7_0 (widget "gadget") quotaExceeded).
  - reflexivity.
  - reflexivity.
  - reflexivity.
  - right. left. reflexivity.
  - right. right. left. reflexivity.
  - reflexivity.
Defined.

(** Server v1.8.0: the modern sweeps run, and every call is a CRD call. *)
Lemma CreateCustomResources_selects_protocol_witness :
  Forall (fun ev => isModernCall ev = true /\ isLegacyCall ev = false)
    (newEvents (afterVersionQuery (context (healthy "v1.8.0") 1 3) start)
       (fst (CreateCustomResources (context (healthy "v1.8.0") 1 3) three start))).
Proof.
  destruct (@CreateCustomResources_selects_protocol nat versionLib pollClock
              (context (healthy "v1.8.0") 1 3) three start
              {| GitVersion := "v1.8.0" |} v1_8_0 v1_7_0)
    as (H & _ & _).
  - reflexivity.
  - reflexivity.
  - reflexivity.
  - destruct (H eq_refl) as (_ & K). exact K.
Defined.

(** A server that reports the version "banana". *)
Lemma CreateCustomResources_unparseable_version_witness :
  snd (CreateCustomResources (context (healthy "banana") 1 3) three start) =
    Panicked (illegal "banana") /\
  newEvents start (fst (CreateCustomResources (context (healthy "banana") 1 3) three start)) =
    [EvServerVersion (inl {| GitVersion := "banana" |})].
Proof.
  destruct (@CreateCustomResources_unparseable_version nat versionLib pollClock
              (context (healthy "banana") 1 3) three start
              {| GitVersion := "banana" |} (illegal "banana"))
    as (R & _ & T & _).
  - reflexivity.
  - reflexivity.
  - split; [exact R | exact T].
Defined.

(** ** Runs on either side of the cutoff *)

Example server_v1_7_0_registers_CRDs :
  map isModernCall
      (newEvents (afterVersionQuery (context (healthy "v1.7.0") 1 3) start)
         (fst (CreateCustomResources (context (healthy "v1.7.0") 1 3)
                 [widget "widget"] start))) = [true; true].
Proof. reflexivity. Qed.

Example server_v1_6_4_registers_TPRs :
  map isLegacyCall
      (newEvents (afterVersionQuery (context (healthy "v1.6.4") 1 3) start)
         (fst (CreateCustomResources (context (healthy "v1.6.4") 1 3)
                 [widget "widget"] start))) = [true; true].
Proof. reflexivity. Qed.

Example quota_error_is_reported_last :
  snd (CreateCustomResources (context (quotaScript "v1.8.0") 1 3) three start) =
  Returned (Some (ErrorString "failed to create gadget CRD. quota exceeded")).
Proof. reflexivity. Qed.

(** With a budget of three polls the probe path that needs four is given
    up, and the declaration is deleted. *)
Example slow_start_with_short_budget :
  snd (waitForTPRInit (context slowStartScript 1 2) (widget "widget") start) =
    Some ErrWaitTimeout /\
  map isReadinessCheck
      (trace (fst (waitForTPRInit (context slowStartScript 1 2) (widget "widget") start))) =
    [true; true; true; true] /\
  last (trace (fst (waitForTPRInit (context slowStartScript 1 2) (widget "widget") start)))
       (EvServerVersion (inr ErrWaitTimeout)) =
    EvTPRDelete "widget.example.io" None.
Proof. repeat split. Qed.

(** ** The further properties on the scripted cluster *)

(** The version query is refused: one call, and its error comes back. *)
Lemma CreateCustomResources_version_query_fails_witness :
  snd (CreateCustomResources (context unreachableScript 1 3) three start) =
    Returned (Some (ErrorString "Error getting server version: connection refused")) /\
  newEvents start (fst (CreateCustomResources (context unreachableScript 1 3) three start)) =
    [EvServerVersion (inr unreachable)].
Proof.
  destruct (@CreateCustomResources_version_query_fails nat versionLib pollClock
              (context unreachableScript 1 3) three start unreachable)
    as (R & _ & T).
  - reflexivity.
  - split; [exact R | exact T].
Defined.

(** A pending snapshot, then "not found" from Get: the modern wait gives
    up on the second poll of eleven. *)
Lemma waitForCRDInit_get_error_witness :
  snd (waitForCRDInit (context vanishedScript 1 10) (widget "widget") start) = Some notFound /\
  List.length (newEvents start
                 (fst (waitForCRDInit (context vanishedScript 1 10) (widget "widget") start))) = 2.
Proof.
  destruct (@waitForCRDInit_get_error nat pollClock
              (context vanishedScript 1 10) (widget "widget") start
              [stored "widgets.example.io" pending] notFound)
    as (R & T).
  - vm_compute. lia.
  - reflexivity.
  - repeat constructor.
  - split; [exact R | rewrite T; reflexivity].
Defined.

(** A declaration that stays pending, with a budget of two ticks. *)
Lemma waitForCRDInit_timeout_witness :
  snd (waitForCRDInit (context pendingScript 1 2) (widget "widget") start) =
    Some ErrWaitTimeout /\
  List.length (newEvents start
                 (fst (waitForCRDInit (context pendingScript 1 2) (widget "widget") start))) = 3.
Proof.
  destruct (@waitForCRDInit_timeout nat pollClock
              (context pendingScript 1 2) (widget "widget") start
              [stored "widgets.example.io" pending; stored "widgets.example.io" pending;
               stored "widgets.example.io" pending])
    as (R & _ & L).
  - reflexivity.
  - repeat constructor.
  - split; [exact R | exact L].
Defined.

(** A probe path that never appears, with a budget of three ticks and a
    failing delete. *)
Lemma waitForTPRInit_timeout_witness :
  newEvents start (fst (waitForTPRInit (context neverServedScript 1 3) (widget "widget") start)) =
    [EvDoRaw "apis/example.io/v1alpha1/widgets" (Some notFound);
     EvDoRaw "apis/example.io/v1alpha1/widgets" (Some notFound);
     EvDoRaw "apis/example.io/v1alpha1/widgets" (Some notFound);
     EvDoRaw "apis/example.io/v1alpha1/widgets" (Some notFound);
     EvTPRDelete "widget.example.io" (Some storageDown)].
Proof.
  destruct (@waitForTPRInit_timeout nat pollClock
              (context neverServedScript 1 3) (widget "widget") start
              [notFound; notFound; notFound; notFound])
    as (T & _).
  - reflexivity.
  - repeat constructor.
  - exact T.
Defined.

(** Three descriptors, the second refused for quota, every wait
    successful: the refusal is what the run returns. *)
Lemma CreateCustomResources_returns_last_error_witness :
  snd (CreateCustomResources (context (quotaScript "v1.8.0") 1 3) three start) =
    Returned (Some (ErrorString "failed to create gadget CRD. quota exceeded")).
Proof.
  destruct (@CreateCustomResources_returns_last_error nat versionLib pollClock
              (context (quotaScript "v1.8.0") 1 3) three start
              {| GitVersion := "v1.8.0" |} v1_8_0 v1_7_0)
    as (R & _).
  - reflexivity.
  - reflexivity.
  - reflexivity.
  - exact R.
Defined.


(** Two descriptors with one declaration. *)
Lemma createCRD_crd_injective_witness :
  widget "gadget" =
  {| Name := "gadget"; Plural := "gadgets"; Group := "example.io";
     Version := "v1alpha1"; Scope := "Namespaced"; Kind := "Widget" |}.
Proof.
  apply (@createCRD_crd_injective (widget "gadget")
           {| Name := "gadget"; Plural := "gadgets"; Group := "example.io";
              Version := "v1alpha1"; Scope := "Namespaced"; Kind := "Widget" |}).
  reflexivity.
Defined.
